(** * Finance-AI dashboard: the analysis store and the forecast transform

    A shallow embedding of the front end's logic:
    - [frontend/App.jsx]: the zustand store [useAnalysisStore] ([setInput],
      [fetchAnalysis]), the change handlers of [ProfileInputForm], the
      branching of [DashboardDisplay] and the series split of [PriceForecast];
    - the [SearchForm] component ([handleChange] and its change handlers);
    - the [StockChart] component (series split and [connectorData]).

    Conventions.  A JavaScript string is a [string] of characters in the
    ASCII range; the functions below leave other bytes as they are.  A JSON
    number is a rational [Q].  [null] is [None] where a field is nullable,
    [undefined] is [None] where a property may be missing.  What belongs to
    the runtime and not to the program (the environment variable
    [VITE_API_URL], [JSON.parse]) is a field of [Runtime]. *)

From Stdlib Require Import String Ascii ZArith QArith List Bool Lia DecimalString.
From Stdlib Require DecimalPos.
From stdpp Require Import base option list gmap strings.
Import ListNotations.

Local Open Scope string_scope.
Local Open Scope list_scope.
Local Open Scope nat_scope.

(** ** Strings: the built-ins the handlers call *)

Module Str.

Definition is_lower (c : ascii) : bool :=
  ((97 <=? N_of_ascii c) && (N_of_ascii c <=? 122))%N.

Definition upper_char (c : ascii) : ascii :=
  if is_lower c then ascii_of_N (N_of_ascii c - 32) else c.

(** [s.toUpperCase()] *)
Fixpoint toUpperCase (s : string) : string :=
  match s with
  | EmptyString => EmptyString
  | String c r => String (upper_char c) (toUpperCase r)
  end.

(** White space and line terminators of the ASCII range: TAB, LF, VT, FF,
    CR and SPACE. *)
Definition is_whitespace (c : ascii) : bool :=
  (((9 <=? N_of_ascii c) && (N_of_ascii c <=? 13)) || (N_of_ascii c =? 32))%N.

Fixpoint trimStart (s : string) : string :=
  match s with
  | EmptyString => EmptyString
  | String c r => if is_whitespace c then trimStart r else s
  end.

Fixpoint trimEnd (s : string) : string :=
  match s with
  | EmptyString => EmptyString
  | String c r =>
      match trimEnd r with
      | EmptyString => if is_whitespace c then EmptyString else String c EmptyString
      | r' => String c r'
      end
  end.

(** [s.trim()] *)
Definition trim (s : string) : string := trimEnd (trimStart s).

(** [s.split(sep)] for a one-character separator: never empty, one more
    segment than there are separators. *)
Fixpoint split (sep : ascii) (s : string) : list string :=
  match s with
  | EmptyString => [EmptyString]
  | String c r =>
      if Ascii.eqb c sep then EmptyString :: split sep r
      else match split sep r with
           | seg :: segs => String c seg :: segs
           | [] => [String c EmptyString]
           end
  end.

(** [xs.join(sep)] on an array of strings *)
Definition join (sep : string) (xs : list string) : string := String.concat sep xs.

(** [s.startsWith(p)] *)
Definition startsWith (p s : string) : bool := String.prefix p s.

Definition is_digit (c : ascii) : bool :=
  ((48 <=? N_of_ascii c) && (N_of_ascii c <=? 57))%N.

Definition digit_value (c : ascii) : Z := Z.of_N (N_of_ascii c - 48).

(** The value of the longest prefix of decimal digits; [None] when there is
    no digit at all. *)
Fixpoint digits (s : string) (acc : Z) (seen : bool) : option Z :=
  match s with
  | String c r =>
      if is_digit c then digits r (10 * acc + digit_value c)%Z true
      else if seen then Some acc else None
  | EmptyString => if seen then Some acc else None
  end.

(** [parseInt(s, 10)]: leading white space is skipped, then an optional
    sign, then the longest run of digits; [None] is [NaN].  The result is
    the exact integer (the rounding of integers beyond 2^53 is left out). *)
Definition parseInt (s : string) : option Z :=
  match trimStart s with
  | String "-" r => Z.opp <$> digits r 0%Z false
  | String "+" r => digits r 0%Z false
  | r => digits r 0%Z false
  end.

(** How many times [c] occurs in [s]. *)
Fixpoint occurrences (c : ascii) (s : string) : nat :=
  match s with
  | EmptyString => 0
  | String a r => (if Ascii.eqb a c then 1 else 0) + occurrences c r
  end.

Definition has_comma (s : string) : bool := negb (occurrences "," s =? 0).

Fixpoint last_char (s : string) : option ascii :=
  match s with
  | EmptyString => None
  | String c EmptyString => Some c
  | String _ r => last_char r
  end.

(** No white space at either end (the empty string has none). *)
Definition no_edge_whitespace (s : string) : bool :=
  match s with
  | EmptyString => true
  | String c _ =>
      negb (is_whitespace c)
      && match last_char s with Some d => negb (is_whitespace d) | None => true end
  end.

(** An entry that the financial-condition input shows and reads back as it
    is: no comma, no white space at either end. *)
Definition plain_entry (s : string) : bool :=
  negb (has_comma s) && no_edge_whitespace s.

End Str.

(** ** The forecast series *)

(** [ForecastData] of [lib/types.ts]; [type] is kept as the string the
    filters compare. *)
Record ForecastPoint := {
  month : string;
  price : Q;
  type : string;
}.

Definition is_history (d : ForecastPoint) : bool := String.eqb (type d) "history".
Definition is_forecast (d : ForecastPoint) : bool := String.eqb (type d) "forecast".

Module PriceForecast.

Record Series := {
  historyData : list ForecastPoint;
  forecastData : list ForecastPoint;
  connector : list ForecastPoint;
}.

(** [PriceForecast] of App.jsx, up to the JSX it returns. *)
Definition PriceForecast (data : list ForecastPoint) : Series :=
  let historyData := List.filter is_history data in
  let forecastData := List.filter is_forecast data in
  let connector :=
    if 0 <? length historyData
    then option_list (historyData !! (length historyData - 1)) ++ forecastData
    else forecastData in
  {| historyData := historyData; forecastData := forecastData; connector := connector |}.

End PriceForecast.

Module StockChart.

Record Series := {
  historyData : list ForecastPoint;
  forecastData : list ForecastPoint;
  connectorData : list ForecastPoint;
}.

(** [StockChart], up to the JSX it returns.  [data] may be [null]; [None]
    as a result is the "Waiting for data..." card. *)
Definition StockChart (data : option (list ForecastPoint)) : option Series :=
  match data with
  | None => None
  | Some data =>
      if length data =? 0 then None
      else
        let historyData := List.filter is_history data in
        let forecastData := List.filter is_forecast data in
        let connectorData :=
          if 0 <? length historyData
          then option_list (historyData !! (length historyData - 1))
               ++ (if 0 <? length forecastData then option_list (forecastData !! 0) else [])
          else [] in
        Some {| historyData := historyData; forecastData := forecastData;
                connectorData := connectorData |}
  end.

End StockChart.

(** The forecast series of [mockData]. *)
Definition mock_forecast : list ForecastPoint :=
  [ {| month := "Jan"; price := 150; type := "history" |};
    {| month := "Feb"; price := 155; type := "history" |};
    {| month := "Mar"; price := 160; type := "history" |};
    {| month := "Apr"; price := 165; type := "history" |};
    {| month := "May"; price := 170; type := "history" |};
    {| month := "Jun"; price := 175; type := "history" |};
    {| month := "Jul"; price := 180; type := "history" |};
    {| month := "Aug"; price := 185; type := "history" |};
    {| month := "Sep"; price := 190; type := "forecast" |};
    {| month := "Oct"; price := 195; type := "forecast" |};
    {| month := "Nov"; price := 200; type := "forecast" |};
    {| month := "Dec"; price := 205; type := "forecast" |} ]%Q.

(** The five points the spec names for the mock series. *)
Definition mock_connector : list ForecastPoint :=
  [ {| month := "Aug"; price := 185; type := "history" |};
    {| month := "Sep"; price := 190; type := "forecast" |};
    {| month := "Oct"; price := 195; type := "forecast" |};
    {| month := "Nov"; price := 200; type := "forecast" |};
    {| month := "Dec"; price := 205; type := "forecast" |} ]%Q.

(** ** JavaScript values and exceptions *)

Module Js.

#[local] Set Warnings "-register-all".

(** A value that came out of [JSON.parse] (or of axios' parse of a body).
    An object keeps its members as written; a property read takes the
    last one of a name. *)
Inductive Json :=
| JNull
| JBool (b : bool)
| JNum (q : Q)
| JStr (s : string)
| JArr (xs : list Json)
| JObj (members : list (string * Json)).

(** ToBoolean *)
Definition truthy (v : Json) : bool :=
  match v with
  | JNull => false
  | JBool b => b
  | JNum q => negb (Qeq_bool q 0)
  | JStr s => negb (String.eqb s "")
  | JArr _ | JObj _ => true
  end.

(** ToBoolean of a property that may be [undefined] *)
Definition truthy_opt (v : option Json) : bool :=
  match v with Some v => truthy v | None => false end.

Fixpoint last_member (k : string) (members : list (string * Json)) : option Json :=
  match members with
  | [] => None
  | (k', v) :: rest =>
      match last_member k rest with
      | Some w => Some w
      | None => if String.eqb k' k then Some v else None
      end
  end.

(** An axios response, as far as the store reads it. *)
Record Response := {
  data : Json;
  status : Z;
}.

(** What a [catch] clause receives: [message], and the [response] and
    [request] properties that axios adds to its own errors ([response] when
    the server answered outside 2xx, [request] when a request was sent). *)
Record Error := {
  response : option Response;
  request : bool;
  message : string;
}.

(** [new Error(message)] *)
Definition new_Error (message : string) : Error :=
  {| response := None; request := false; message := message |}.

(** The TypeErrors the engine raises; the wording is V8's. *)
Definition TypeError_null_property (k : string) : Error :=
  new_Error ("Cannot read properties of null (reading '" +:+ k +:+ "')").

Definition TypeError_not_a_function (callee : string) : Error :=
  new_Error (callee +:+ " is not a function").

Definition TypeError_not_primitive : Error :=
  new_Error "Cannot convert object to primitive value".

(** A computation that returns ([inr]) or throws ([inl]). *)
Definition Completion (A : Type) : Type := Error + A.

Definition throw {A} (e : Error) : Completion A := inl e.

#[export] Instance Completion_ret : MRet Completion := fun A x => inr x.
#[export] Instance Completion_bind : MBind Completion :=
  fun A B f m => match m with inl e => inl e | inr x => f x end.

Definition digit_char (d : Z) : ascii := ascii_of_N (48 + Z.to_N d).

Fixpoint fraction_digits (fuel : nat) (r d : Z) : string :=
  match fuel with
  | O => EmptyString
  | S fuel =>
      if (r =? 0)%Z then EmptyString
      else String (digit_char (10 * r / d)) (fraction_digits fuel (10 * r mod d) d)
  end.

(** Number::toString for a number with a short decimal expansion (at most
    21 integer digits, no exponent form): the integer part, then the
    fraction digits when there are any. *)
Definition Number_toString (q : Q) : string :=
  let q := Qred q in
  let d := Z.pos (Qden q) in
  let a := Z.abs (Qnum q) in
  (if (Qnum q <? 0)%Z then "-" else "")
  +:+ NilZero.string_of_int (Z.to_int (a / d))
  +:+ (if (a mod d =? 0)%Z then "" else "." +:+ fraction_digits 40 (a mod d) d).

(** Whether ToString returns: an object with a member named [toString]
    (which hides [Object.prototype.toString] and cannot be called) has no
    primitive value, and neither has an array that holds one. *)
Fixpoint printable (v : Json) : bool :=
  match v with
  | JArr xs => forallb printable xs
  | JObj members => match last_member "toString" members with Some _ => false | None => true end
  | _ => true
  end.

(** The text ToString returns when it does.  An array prints its elements
    joined by commas, [null] elements as nothing; an object prints as
    [[object Object]]. *)
Fixpoint ToString_text (v : Json) : string :=
  match v with
  | JNull => "null"
  | JBool b => if b then "true" else "false"
  | JNum q => Number_toString q
  | JStr s => s
  | JArr xs =>
      String.concat ","
        (List.map (fun x => match x with JNull => "" | _ => ToString_text x end) xs)
  | JObj _ => "[object Object]"
  end.

(** ToString *)
Definition ToString (v : Json) : Completion string :=
  if printable v then mret (ToString_text v) else throw TypeError_not_primitive.

Definition ToString_opt (v : option Json) : Completion string :=
  match v with Some v => ToString v | None => mret "undefined" end.

(** The property read [v.k], for a name [k] that no prototype defines:
    a TypeError on [null], the member of an object, [undefined] otherwise. *)
Definition get (v : Json) (k : string) : Completion (option Json) :=
  match v with
  | JNull => throw (TypeError_null_property k)
  | JObj members => mret (last_member k members)
  | _ => mret None
  end.

(** How the promise of [axios.post] settles: fulfilled with the response
    when the status is 2xx, rejected with axios' error otherwise. *)
Inductive Outcome :=
| Fulfilled (r : Response)
| Rejected (e : Error).

Definition await (o : Outcome) : Completion Response :=
  match o with
  | Fulfilled r => mret r
  | Rejected e => throw e
  end.

End Js.

Import Js.

(** What the program takes from its runtime. *)
Record Runtime := {
  (** [import.meta.env.VITE_API_URL], [None] when it is not set *)
  VITE_API_URL : option string;
  (** [JSON.parse]: the value, or the message of the SyntaxError *)
  JSON_parse : string -> string + Json;
}.

(** ** The store of App.jsx *)

(** A value of a [userInput] field: a string, a number ([NaN] included) or
    an array of strings. *)
Inductive FieldValue :=
| FString (s : string)
| FNumber (n : Z)
| FNaN
| FStrings (xs : list string).

Module App.

Definition API_BASE_URL (rt : Runtime) : string :=
  match VITE_API_URL rt with
  | Some url => if String.eqb url "" then "http://127.0.0.1:8000" else url
  | None => "http://127.0.0.1:8000"
  end.

Definition json_of_point (d : ForecastPoint) : Json :=
  JObj [("month", JStr (month d)); ("price", JNum (price d)); ("type", JStr (type d))].

Definition mockData : Json :=
  JObj
    [ ("analysis",
        JStr "This is a mock analysis. Fill out the form and click 'Analyze' to get a live response.");
      ("keyNews", JStr "Mock news summary. The backend will provide real data.");
      ("forecastData", JArr (List.map json_of_point mock_forecast));
      ("investmentAdvice",
        JObj [("entryPoint", JNum 175.5); ("expectedReturn", JNum 18); ("stopLoss", JNum 168)]);
      ("recommendedStocks",
        JArr
          [ JObj [("ticker", JStr "MSFT"); ("name", JStr "Microsoft");
                  ("reason", JStr "Matches your long-term, stable tech preference.")];
            JObj [("ticker", JStr "GOOGL"); ("name", JStr "Google");
                  ("reason", JStr "Aligns with your interest in high-growth tech.")] ]) ]%Q.

(** The state of the store (its actions are the functions below). *)
Record Store := {
  userInput : gmap string FieldValue;
  isLoading : bool;
  apiError : option string;
  analysisResults : Json;
}.

Definition initial : Store :=
  {| userInput :=
       <["ticker" := FString "AAPL"]>
       (<["financialCondition" := FStrings ["Stable Income"]]>
       (<["expectedReturn" := FNumber 15]>
       (<["riskTolerance" := FString "Medium"]>
       (<["tradingPreferences" :=
            FString "I am a long-term holder, I prefer tech and biotech."]> ∅))));
     isLoading := false;
     apiError := None;
     analysisResults := mockData |}.

(** The object given to zustand's [set]: the fields it names. *)
Record Partial := {
  set_userInput : option (gmap string FieldValue);
  set_isLoading : option bool;
  set_apiError : option (option string);
  set_analysisResults : option Json;
}.

(** [set(partial)]: the named fields are replaced, the others kept. *)
Definition set (partial : Partial) (state : Store) : Store :=
  {| userInput := default (userInput state) (set_userInput partial);
     isLoading := default (isLoading state) (set_isLoading partial);
     apiError := default (apiError state) (set_apiError partial);
     analysisResults := default (analysisResults state) (set_analysisResults partial) |}.

(** [setInput(key, value)]: [{ ...state.userInput, [key]: value }] *)
Definition setInput (key : string) (value : FieldValue) (state : Store) : Store :=
  set {| set_userInput := Some (<[key := value]> (userInput state));
         set_isLoading := None; set_apiError := None; set_analysisResults := None |}
      state.

(** [fetchAnalysis] up to its [await]: the request it posts ... *)
Record Request := {
  url : string;
  body : gmap string FieldValue;
}.

Definition fetchAnalysis_request (rt : Runtime) (state : Store) : Request :=
  {| url := API_BASE_URL rt +:+ "/api/analyze"; body := userInput state |}.

(** ... and the state it leaves while the request is in flight. *)
Definition fetchAnalysis_start (state : Store) : Store :=
  set {| set_userInput := None; set_isLoading := Some true;
         set_apiError := Some None; set_analysisResults := None |}
      state.

(** [aiResponseJsonString.startsWith("Error:")] on a truthy value: only a
    string has the method. *)
Definition call_startsWith (v : option Json) : Completion bool :=
  match v with
  | Some (JStr s) => mret (Str.startsWith "Error:" s)
  | _ => throw (TypeError_not_a_function "aiResponseJsonString.startsWith")
  end.

(** The [try] block from the [await] to [JSON.parse]: the value of
    [aiData], or what was thrown. *)
Definition try_block (rt : Runtime) (o : Outcome) : Completion Json :=
  response ← await o;
  error ← get (data response) "error";
  if truthy_opt error then
    message ← ToString_opt error; throw (new_Error message)
  else
    aiResponseJsonString ← get (data response) "analysis";
    is_error ← (if negb (truthy_opt aiResponseJsonString) then mret true
                else call_startsWith aiResponseJsonString);
    if is_error : bool then
      message ← (if truthy_opt aiResponseJsonString
                 then ToString_opt aiResponseJsonString
                 else mret "Empty response from AI");
      throw (new_Error message)
    else
      text ← ToString_opt aiResponseJsonString;
      match JSON_parse rt text with
      | inr aiData => mret aiData
      | inl syntax_error => throw (new_Error syntax_error)
      end.

(** The [catch] block up to its [set]: the value of [errorMessage].  Its
    initial value is overwritten on every branch; the read of
    [error.response.data.detail] and the printing of [detail] can throw in
    their turn. *)
Definition catch_block (rt : Runtime) (error : Error) : Completion string :=
  let errorMessage := "Failed to fetch analysis." in
  match response error with
  | Some r =>
      detail ← get (data r) "detail";
      text ← (if truthy_opt detail then ToString_opt detail else mret (message error));
      mret ("Server Error: " +:+ text)
  | None =>
      if request error
      then mret ("Connection Error: Is the Python server running at "
                 +:+ API_BASE_URL rt +:+ "?")
      else mret (message error)
  end.

(** [fetchAnalysis] from the moment the request settles. *)
Definition fetchAnalysis_settle (rt : Runtime) (o : Outcome) (state : Store) : Store :=
  match try_block rt o with
  | inr aiData =>
      set {| set_userInput := None; set_isLoading := Some false;
             set_apiError := None; set_analysisResults := Some aiData |}
          state
  | inl error =>
      match catch_block rt error with
      | inr errorMessage =>
          set {| set_userInput := None; set_isLoading := Some false;
                 set_apiError := Some (Some errorMessage); set_analysisResults := None |}
              state
      | inl _ => state
      end
  end.

(** One call of [fetchAnalysis] with nothing else in between. *)
Definition fetchAnalysis (rt : Runtime) (o : Outcome) (state : Store) : Store :=
  fetchAnalysis_settle rt o (fetchAnalysis_start state).

(** The change handlers of [ProfileInputForm]; [value] is [e.target.value]. *)
Definition onChange_ticker (value : string) : Store -> Store :=
  setInput "ticker" (FString (Str.toUpperCase value)).

Definition onChange_riskTolerance (value : string) : Store -> Store :=
  setInput "riskTolerance" (FString value).

Definition onChange_expectedReturn (value : string) : Store -> Store :=
  setInput "expectedReturn"
    (match Str.parseInt value with Some n => FNumber n | None => FNaN end).

Definition onChange_financialCondition (value : string) : Store -> Store :=
  setInput "financialCondition" (FStrings (List.map Str.trim (Str.split "," value))).

Definition onChange_tradingPreferences (value : string) : Store -> Store :=
  setInput "tradingPreferences" (FString value).

(** The text shown in the financial-condition input. *)
Definition display_financialCondition (xs : list string) : string := Str.join ", " xs.

(** What a call of [DashboardDisplay] gives: the spinner, the error card
    with [apiError], the dashboard element whose children are handed the
    members of [analysisResults] (what those children do with them when
    React calls them is [Render.children], below), or the error the call
    throws. *)
Inductive View :=
| Spinner
| ErrorView (apiError : string)
| Dashboard (analysisResults : Json)
| Throws (error : Error).

(** The third branch reads [analysisResults.ticker] first, and the other
    members after it: a TypeError when [analysisResults] is [null]. *)
Definition DashboardDisplay (state : Store) : View :=
  if isLoading state then Spinner
  else match apiError state with
       | Some msg =>
           if String.eqb msg "" then
             match analysisResults state with
             | JNull => Throws (TypeError_null_property "ticker")
             | results => Dashboard results
             end
           else ErrorView msg
       | None =>
           match analysisResults state with
           | JNull => Throws (TypeError_null_property "ticker")
           | results => Dashboard results
           end
       end.

(** What can happen to the store: an edit, a click on Analyze, and the
    settling of a request that is in flight. *)
Inductive Event :=
| Edit (key : string) (value : FieldValue)
| Submit
| Settle (o : Outcome).

Definition step (rt : Runtime) (state : Store) (e : Event) : Store :=
  match e with
  | Edit key value => setInput key value state
  | Submit => fetchAnalysis_start state
  | Settle o => fetchAnalysis_settle rt o state
  end.

(** The store after a sequence of events, the first one first. *)
Definition run (rt : Runtime) (events : list Event) (state : Store) : Store :=
  fold_left (step rt) events state.

(** How [fetchAnalysis] ends once the request has settled: [aiData] is
    stored, or [errorMessage] is, or the [catch] block throws before its
    [set] and nothing is stored. *)
Inductive Settlement :=
| Stored (aiData : Json)
| Failed (errorMessage : string)
| Escaped.

Definition settlement (rt : Runtime) (o : Outcome) : Settlement :=
  match try_block rt o with
  | inr aiData => Stored aiData
  | inl error =>
      match catch_block rt error with
      | inr errorMessage => Failed errorMessage
      | inl _ => Escaped
      end
  end.

(** The responses that [fetchAnalysis] takes as a result, in words: the
    request is fulfilled, the body is an object with no truthy [error]
    member, its [analysis] member is a string, not empty, not starting with
    "Error:", and [JSON.parse] gives [aiData] for it. *)
Definition Accepted (rt : Runtime) (o : Outcome) (aiData : Json) : Prop :=
  exists r members text,
    o = Fulfilled r
    /\ data r = JObj members
    /\ truthy_opt (last_member "error" members) = false
    /\ last_member "analysis" members = Some (JStr text)
    /\ text <> EmptyString
    /\ Str.startsWith "Error:" text = false
    /\ JSON_parse rt text = inr aiData.

(** A rejection on which the [catch] block throws in its turn: it carries
    a response whose body is [null], or whose [detail] is truthy and has no
    primitive value. *)
Definition unhandled_rejection (o : Outcome) : bool :=
  match o with
  | Rejected {| response := Some {| data := JNull |} |} => true
  | Rejected {| response := Some {| data := JObj members |} |} =>
      match last_member "detail" members with
      | Some detail => truthy detail && negb (printable detail)
      | None => false
      end
  | _ => false
  end.

End App.

(** ** The form state of SearchForm *)

Module SearchForm.

(** [handleChange(key, value)]: [{ ...prev, [key]: value }] *)
Definition handleChange (key : string) (value : FieldValue)
    (prev : gmap string FieldValue) : gmap string FieldValue :=
  <[key := value]> prev.

Definition onChange_ticker (value : string) :=
  handleChange "ticker" (FString (Str.toUpperCase value)).

Definition onValueChange_riskTolerance (value : string) :=
  handleChange "riskTolerance" (FString value).

(** [parseInt(e.target.value, 10) || 0] *)
Definition onChange_expectedReturn (value : string) :=
  handleChange "expectedReturn"
    (FNumber (match Str.parseInt value with
              | Some n => if (n =? 0)%Z then 0%Z else n
              | None => 0%Z
              end)).

Definition onChange_financialCondition (value : string) :=
  handleChange "financialCondition" (FStrings (List.map Str.trim (Str.split "," value))).

Definition onChange_tradingPreferences (value : string) :=
  handleChange "tradingPreferences" (FString value).

Definition display_financialCondition (xs : list string) : string := Str.join ", " xs.

End SearchForm.

(** ** A reference [JSON.parse]

    The grammar of RFC 8259, for the runs on concrete texts below.  The
    recursion is on a fuel that [JSON_parse] sets from the length of the
    text.  A [\u] escape is written out in UTF-8, one code unit at a time. *)

Module JsonText.

Definition is_ws (c : ascii) : bool :=
  let n := N_of_ascii c in ((n =? 32) || (n =? 9) || (n =? 10) || (n =? 13))%N.

Fixpoint skip_ws (s : string) : string :=
  match s with
  | String c r => if is_ws c then skip_ws r else s
  | EmptyString => EmptyString
  end.

(** The text after the prefix [p], when [s] starts with it. *)
Fixpoint after (p s : string) : option string :=
  match p, s with
  | EmptyString, _ => Some s
  | String a p', String b s' => if Ascii.eqb a b then after p' s' else None
  | String _ _, EmptyString => None
  end.

(** A run of digits: its value on top of [acc], its length, the rest. *)
Fixpoint read_digits (s : string) (acc : Z) (n : nat) : Z * nat * string :=
  match s with
  | String c r =>
      if Str.is_digit c then read_digits r (10 * acc + Str.digit_value c)%Z (S n)
      else (acc, n, s)
  | EmptyString => (acc, n, s)
  end.

Definition scale (m e : Z) : Q :=
  if (0 <=? e)%Z then inject_Z (m * 10 ^ e) else Qred (Qmake m (Z.to_pos (10 ^ (- e)))).

(** [int frac? exp?] after the optional minus sign *)
Definition read_unsigned (s : string) : option (Z * Z * string) :=
  let '(i, ni, r) := read_digits s 0%Z 0 in
  if (ni =? 0) || ((1 <? ni) && (match s with String "0" _ => true | _ => false end))
  then None
  else
    match (match r with
           | String "." r' =>
               let '(m, nf, r'') := read_digits r' i 0 in
               if nf =? 0 then None else Some (m, Z.of_nat nf, r'')
           | _ => Some (i, 0%Z, r)
           end) with
    | None => None
    | Some (m, nf, r) =>
        match r with
        | String c r' =>
            if Ascii.eqb c "e" || Ascii.eqb c "E" then
              let '(neg, r'') :=
                match r' with
                | String "-" t => (true, t)
                | String "+" t => (false, t)
                | _ => (false, r')
                end in
              let '(x, nx, rest) := read_digits r'' 0%Z 0 in
              if nx =? 0 then None
              else Some (m, ((if neg then - x else x) - nf)%Z, rest)
            else Some (m, (- nf)%Z, r)
        | EmptyString => Some (m, (- nf)%Z, r)
        end
    end.

Definition read_number (s : string) : option (Q * string) :=
  match s with
  | String "-" r =>
      '(m, e, rest) ← read_unsigned r; Some (scale (- m) e, rest)
  | _ => '(m, e, rest) ← read_unsigned s; Some (scale m e, rest)
  end.

Definition hex_value (c : ascii) : option N :=
  let n := N_of_ascii c in
  if ((48 <=? n) && (n <=? 57))%N then Some (n - 48)%N
  else if ((97 <=? n) && (n <=? 102))%N then Some (n - 87)%N
  else if ((65 <=? n) && (n <=? 70))%N then Some (n - 55)%N
  else None.

Definition utf8 (u : N) (rest : string) : string :=
  if (u <? 128)%N then String (ascii_of_N u) rest
  else if (u <? 2048)%N then
    String (ascii_of_N (192 + u / 64)) (String (ascii_of_N (128 + u mod 64)) rest)
  else
    String (ascii_of_N (224 + u / 4096))
      (String (ascii_of_N (128 + (u / 64) mod 64)) (String (ascii_of_N (128 + u mod 64)) rest)).

(** The characters of a string literal after its opening quote, up to the
    closing one. *)
Fixpoint read_string (s : string) : option (string * string) :=
  match s with
  | EmptyString => None
  | String c r =>
      if Ascii.eqb c "034" then Some (EmptyString, r)
      else if Ascii.eqb c "\" then
        match r with
        | String "u" (String a (String b (String c' (String d r')))) =>
            ha ← hex_value a; hb ← hex_value b; hc ← hex_value c'; hd ← hex_value d;
            '(t, rest) ← read_string r';
            Some (utf8 (((ha * 16 + hb) * 16 + hc) * 16 + hd)%N t, rest)
        | String e r' =>
            x ← (if Ascii.eqb e "034" then Some "034"%char
                 else if Ascii.eqb e "\" then Some "\"%char
                 else if Ascii.eqb e "/" then Some "/"%char
                 else if Ascii.eqb e "b" then Some "008"%char
                 else if Ascii.eqb e "f" then Some "012"%char
                 else if Ascii.eqb e "n" then Some "010"%char
                 else if Ascii.eqb e "r" then Some "013"%char
                 else if Ascii.eqb e "t" then Some "009"%char
                 else None);
            '(t, rest) ← read_string r';
            Some (String x t, rest)
        | EmptyString => None
        end
      else if (N_of_ascii c <? 32)%N then None
      else '(t, rest) ← read_string r; Some (String c t, rest)
  end.

Fixpoint read_value (fuel : nat) (s : string) : option (Json * string) :=
  match fuel with
  | O => None
  | S fuel =>
      match skip_ws s with
      | EmptyString => None
      | String c r as t =>
          if Ascii.eqb c "034" then
            '(x, rest) ← read_string r; Some (JStr x, rest)
          else if Ascii.eqb c "[" then
            match skip_ws r with
            | String "]" rest => Some (JArr [], rest)
            | _ => '(xs, rest) ← read_elements fuel r; Some (JArr xs, rest)
            end
          else if Ascii.eqb c "{" then
            match skip_ws r with
            | String "}" rest => Some (JObj [], rest)
            | _ => '(ms, rest) ← read_members fuel r; Some (JObj ms, rest)
            end
          else
            match after "null" t, after "true" t, after "false" t with
            | Some rest, _, _ => Some (JNull, rest)
            | _, Some rest, _ => Some (JBool true, rest)
            | _, _, Some rest => Some (JBool false, rest)
            | _, _, _ => '(q, rest) ← read_number t; Some (JNum q, rest)
            end
      end
  end
with read_elements (fuel : nat) (s : string) : option (list Json * string) :=
  match fuel with
  | O => None
  | S fuel =>
      '(x, r) ← read_value fuel s;
      match skip_ws r with
      | String "," r' => '(xs, rest) ← read_elements fuel r'; Some (x :: xs, rest)
      | String "]" rest => Some ([x], rest)
      | _ => None
      end
  end
with read_members (fuel : nat) (s : string) : option (list (string * Json) * string) :=
  match fuel with
  | O => None
  | S fuel =>
      match skip_ws s with
      | String "034" r =>
          '(k, r1) ← read_string r;
          match skip_ws r1 with
          | String ":" r2 =>
              '(x, r3) ← read_value fuel r2;
              match skip_ws r3 with
              | String "," r4 => '(ms, rest) ← read_members fuel r4; Some ((k, x) :: ms, rest)
              | String "}" rest => Some ([(k, x)], rest)
              | _ => None
              end
          | _ => None
          end
      | _ => None
      end
  end.

(** The message of the SyntaxError; engines word it each in their way. *)
Definition SyntaxError_message : string := "Unexpected token or end of JSON input".

Definition JSON_parse (text : string) : string + Json :=
  match read_value (2 * String.length text + 2) text with
  | Some (v, rest) =>
      match skip_ws rest with
      | EmptyString => inr v
      | _ => inl SyntaxError_message
      end
  | None => inl SyntaxError_message
  end.

End JsonText.

(** A browser session with no [VITE_API_URL] set. *)
Definition local_runtime : Runtime :=
  {| VITE_API_URL := None; JSON_parse := JsonText.JSON_parse |}.

(** ** The shape of a result, as [lib/types.ts] declares it *)

Module Shape.

Definition is_string (v : option Json) : bool :=
  match v with Some (JStr _) => true | _ => false end.

Definition is_number (v : option Json) : bool :=
  match v with Some (JNum _) => true | _ => false end.

Definition all_members (p : list (string * Json) -> bool) (v : option Json) : bool :=
  match v with
  | Some (JArr xs) =>
      forallb (fun x => match x with JObj ms => p ms | _ => false end) xs
  | _ => false
  end.

(** [ForecastData] *)
Definition ForecastData (ms : list (string * Json)) : bool :=
  is_string (last_member "month" ms)
  && is_number (last_member "price" ms)
  && match last_member "type" ms with
     | Some (JStr t) => String.eqb t "history" || String.eqb t "forecast"
     | _ => false
     end.

(** [InvestmentAdviceData] *)
Definition InvestmentAdviceData (v : option Json) : bool :=
  match v with
  | Some (JObj ms) =>
      is_number (last_member "entryPoint" ms)
      && is_number (last_member "expectedReturn" ms)
      && is_number (last_member "stopLoss" ms)
  | _ => false
  end.

(** [RecommendedStockData]; [name] is optional. *)
Definition RecommendedStockData (ms : list (string * Json)) : bool :=
  is_string (last_member "ticker" ms)
  && is_string (last_member "reason" ms)
  && match last_member "name" ms with
     | None | Some (JStr _) => true
     | _ => false
     end.

(** [AnalysisResult] *)
Definition AnalysisResult (v : Json) : bool :=
  match v with
  | JObj ms =>
      is_string (last_member "analysis" ms)
      && is_string (last_member "keyNews" ms)
      && all_members ForecastData (last_member "forecastData" ms)
      && InvestmentAdviceData (last_member "investmentAdvice" ms)
      && all_members RecommendedStockData (last_member "recommendedStocks" ms)
  | _ => false
  end.

End Shape.

(** ** Sample settlements *)

Module Sample.

(** A 2xx response whose body is the object with these members. *)
Definition reply (members : list (string * Json)) : Outcome :=
  Fulfilled {| data := JObj members; status := 200 |}.

(** The request was sent and no response came back. *)
Definition network_error : Outcome :=
  Rejected {| response := None; request := true; message := "Network Error" |}.

(** The server answered 404 with a [detail]. *)
Definition server_error : Outcome :=
  Rejected {| response := Some {| data := JObj [("detail", JStr "Ticker not found")];
                                  status := 404 |};
              request := true;
              message := "Request failed with status code 404" |}.

(** The server answered 500 with the body [null]. *)
Definition null_body_error : Outcome :=
  Rejected {| response := Some {| data := JNull; status := 500 |};
              request := true;
              message := "Request failed with status code 500" |}.

(** What [network_error] leaves in [apiError] on [local_runtime]. *)
Definition connection_message : string :=
  "Connection Error: Is the Python server running at http://127.0.0.1:8000?".

End Sample.

(** ** The form as the user drives it *)

Module Form.

Import App.

(** The options of the risk-tolerance select. *)
Inductive Risk := Low | Medium | High.

Definition Risk_text (r : Risk) : string :=
  match r with Low => "Low" | Medium => "Medium" | High => "High" end.

(** What the user and the network can do to the page of [ProfileInputForm]:
    type in a field, pick an option, click Analyze, and a reply to the
    oldest request in flight. *)
Inductive Action :=
| Type_ticker (value : string)
| Select_riskTolerance (option : Risk)
| Type_expectedReturn (value : string)
| Type_financialCondition (value : string)
| Type_tradingPreferences (value : string)
| Click_Analyze
| Reply (o : Outcome).

(** The store together with the requests posted and not yet settled. *)
Record Page := {
  store : Store;
  in_flight : list Request;
}.

Definition start : Page := {| store := initial; in_flight := [] |}.

(** The ticker input is [required]: the browser refuses to submit the form
    while its value is the empty text. *)
Definition ticker_missing (state : Store) : bool :=
  match userInput state !! "ticker" with
  | Some (FString t) => String.eqb t ""
  | _ => true
  end.

(** [handleSubmit]: [fetchAnalysis] up to its [await]. *)
Definition handleSubmit (rt : Runtime) (p : Page) : Page :=
  {| store := fetchAnalysis_start (store p);
     in_flight := in_flight p ++ [fetchAnalysis_request rt (store p)] |}.

Definition edit (f : Store -> Store) (p : Page) : Page :=
  {| store := f (store p); in_flight := in_flight p |}.

(** The Analyze button is disabled while [isLoading]; a disabled submit
    button and a missing required value both keep [onSubmit] from firing.
    (The browser can refuse a submission for more reasons, such as a number
    it cannot read in the expected-return input; the model lets those
    through.) *)
Definition act (rt : Runtime) (p : Page) (a : Action) : Page :=
  match a with
  | Type_ticker value => edit (onChange_ticker value) p
  | Select_riskTolerance option => edit (onChange_riskTolerance (Risk_text option)) p
  | Type_expectedReturn value => edit (onChange_expectedReturn value) p
  | Type_financialCondition value => edit (onChange_financialCondition value) p
  | Type_tradingPreferences value => edit (onChange_tradingPreferences value) p
  | Click_Analyze =>
      if isLoading (store p) || ticker_missing (store p) then p else handleSubmit rt p
  | Reply o =>
      match in_flight p with
      | [] => p
      | _ :: rest => {| store := fetchAnalysis_settle rt o (store p); in_flight := rest |}
      end
  end.

Definition acts (rt : Runtime) (actions : list Action) (p : Page) : Page :=
  fold_left (act rt) actions p.

(** The pages the form can be in. *)
Definition reachable (rt : Runtime) (p : Page) : Prop :=
  exists actions, p = acts rt actions start.

(** The profile as the handlers keep it: an upper-case ticker, one of the
    three risk options, a number or [NaN], at least one entry each without
    comma or outer white space, and a text. *)
Definition profile_ok (profile : gmap string FieldValue) : Prop :=
  (exists t, profile !! "ticker" = Some (FString t) /\ Str.toUpperCase t = t)
  /\ (exists r, profile !! "riskTolerance" = Some (FString (Risk_text r)))
  /\ (profile !! "expectedReturn" = Some FNaN
      \/ exists n, profile !! "expectedReturn" = Some (FNumber n))
  /\ (exists xs, profile !! "financialCondition" = Some (FStrings xs)
                 /\ xs <> [] /\ forallb Str.plain_entry xs = true)
  /\ (exists t, profile !! "tradingPreferences" = Some (FString t)).

(** A request as the form posts it: to the analyze endpoint, with a
    profile that has a ticker. *)
Definition request_ok (rt : Runtime) (r : Request) : Prop :=
  url r = API_BASE_URL rt +:+ "/api/analyze"
  /\ profile_ok (body r)
  /\ exists t, body r !! "ticker" = Some (FString t) /\ t <> EmptyString.

(** What every page the form can be in satisfies. *)
Definition invariant (rt : Runtime) (p : Page) : Prop :=
  profile_ok (userInput (store p))
  /\ length (in_flight p) <= 1
  /\ (in_flight p <> [] -> isLoading (store p) = true /\ apiError (store p) = None)
  /\ Forall (request_ok rt) (in_flight p).

End Form.

(** ** The children of the dashboard

    What the components that [DashboardDisplay] puts on the page do with the
    member they are handed ([None] for a member that is not there), as far
    as JavaScript decides it: whether the call of the component returns or
    throws.  What React and the chart library then do with the elements
    returned is not modelled. *)

Module Render.

Definition TypeError_undefined_property (k : string) : Error :=
  new_Error ("Cannot read properties of undefined (reading '" +:+ k +:+ "')").

(** The message of a destructuring of [null] or [undefined]; the wording is
    V8's. *)
Definition TypeError_destructure (k source what : string) : Error :=
  new_Error ("Cannot destructure property '" +:+ k +:+ "' of '" +:+ source +:+ "' as it is "
             +:+ what +:+ ".").

(** The callback [d => d.type === ...] (and [stock => ... stock.ticker ...])
    on each element in turn: the read of a property of [null] throws. *)
Fixpoint each_has_properties (k : string) (xs : list Json) : Completion unit :=
  match xs with
  | [] => mret tt
  | JNull :: _ => throw (TypeError_null_property k)
  | _ :: rest => each_has_properties k rest
  end.

(** [PriceForecast({ data })] up to its [return]: the two calls of
    [data.filter]. *)
Definition PriceForecast_call (data : option Json) : Completion unit :=
  match data with
  | None => throw (TypeError_undefined_property "filter")
  | Some JNull => throw (TypeError_null_property "filter")
  | Some (JArr xs) => each_has_properties "type" xs
  | Some _ => throw (TypeError_not_a_function "data.filter")
  end.

(** [x?.toFixed(n)]: nothing is called on [null] and [undefined], a number
    has the method, anything else has not. *)
Definition optional_toFixed (name : string) (x : option Json) : Completion unit :=
  match x with
  | None | Some JNull | Some (JNum _) => mret tt
  | Some _ => throw (TypeError_not_a_function (name +:+ "?.toFixed"))
  end.

(** [InvestmentAdvice({ data })]: the destructuring, then the three
    formatted values in the order of the cards. *)
Definition InvestmentAdvice_call (data : option Json) : Completion unit :=
  match data with
  | None => throw (TypeError_destructure "entryPoint" "data" "undefined")
  | Some JNull => throw (TypeError_destructure "entryPoint" "data" "null")
  | Some data =>
      entryPoint ← get data "entryPoint";
      expectedReturn ← get data "expectedReturn";
      stopLoss ← get data "stopLoss";
      _ ← optional_toFixed "entryPoint" entryPoint;
      _ ← optional_toFixed "expectedReturn" expectedReturn;
      optional_toFixed "stopLoss" stopLoss
  end.

(** [RecommendedStocks({ data = [] })]: the call of [data.map]. *)
Definition RecommendedStocks_call (data : option Json) : Completion unit :=
  match data with
  | None => mret tt
  | Some JNull => throw (TypeError_null_property "map")
  | Some (JArr xs) => each_has_properties "ticker" xs
  | Some _ => throw (TypeError_not_a_function "data.map")
  end.

(** The children of the dashboard element over [results], in the order of
    the page; [AnalysisSummary] hands its two members on to React and calls
    nothing on them.  [results] is not [null] here ([DashboardDisplay] has
    thrown on that). *)
Definition children (results : Json) : Completion unit :=
  forecastData ← get results "forecastData";
  investmentAdvice ← get results "investmentAdvice";
  recommendedStocks ← get results "recommendedStocks";
  _ ← PriceForecast_call forecastData;
  _ ← InvestmentAdvice_call investmentAdvice;
  RecommendedStocks_call recommendedStocks.

End Render.

(** ** Upper-cased and trimmed, in words *)

(** [b] is the upper-case form of [a]: the letter 32 codes below for the
    codes 97 to 122 (a to z), [a] itself otherwise. *)
Definition upper_case_of (a b : ascii) : Prop :=
  if ((97 <=? N_of_ascii a) && (N_of_ascii a <=? 122))%N
  then N_of_ascii b = (N_of_ascii a - 32)%N
  else b = a.

(** [stored] is [raw] upper-cased, character by character. *)
Definition upper_cased (raw stored : string) : Prop :=
  Forall2 upper_case_of (list_ascii_of_string raw) (list_ascii_of_string stored).

Fixpoint all_whitespace (s : string) : bool :=
  match s with
  | EmptyString => true
  | String c r => Str.is_whitespace c && all_whitespace r
  end.

(** [entry] is [segment] without the white space at its two ends: what is
    cut off on either side is white space only, and what is left neither
    starts nor ends with white space. *)
Definition trimmed_of (segment entry : string) : Prop :=
  exists before behind,
    segment = before +:+ entry +:+ behind
    /\ all_whitespace before = true
    /\ all_whitespace behind = true
    /\ Str.no_edge_whitespace entry = true.

(** ** Points the filters drop *)

(** A point whose [type] is neither of the two the filters keep. *)
Definition other_type (d : ForecastPoint) : bool :=
  negb (is_history d) && negb (is_forecast d).

(** ** Decimal numerals *)

(** The number a run of decimal digits stands for, on top of [acc]. *)
Fixpoint uint_value (d : Decimal.uint) (acc : Z) : Z :=
  match d with
  | Decimal.Nil => acc
  | Decimal.D0 d => uint_value d (10 * acc)
  | Decimal.D1 d => uint_value d (10 * acc + 1)
  | Decimal.D2 d => uint_value d (10 * acc + 2)
  | Decimal.D3 d => uint_value d (10 * acc + 3)
  | Decimal.D4 d => uint_value d (10 * acc + 4)
  | Decimal.D5 d => uint_value d (10 * acc + 5)
  | Decimal.D6 d => uint_value d (10 * acc + 6)
  | Decimal.D7 d => uint_value d (10 * acc + 7)
  | Decimal.D8 d => uint_value d (10 * acc + 8)
  | Decimal.D9 d => uint_value d (10 * acc + 9)
  end%Z.

(** ** The events that edit the profile *)

Definition is_edit (e : App.Event) : bool :=
  match e with App.Edit _ _ => true | _ => false end.

(** ** The build gate

    The script that tells the host whether to build: status 0 skips the
    build, any other status runs it.  It runs under [set -euo pipefail]. *)

Module BuildGate.

(** What the script reads from its environment and gets from git: the two
    variables ([None] when unset), whether [git cat-file -e] finds the
    previous commit, and the exit statuses of the two fetches and of
    [git diff --quiet] when they are run. *)
Record World := {
  VERCEL_GIT_PREVIOUS_SHA : option string;
  VERCEL_GIT_COMMIT_SHA : option string;
  cat_file_finds : bool;
  fetch_depth_1 : Z;
  fetch_unshallow : Z;
  diff_quiet : Z;
}.

(** The exit status of the script. *)
Definition exit_status (w : World) : Z :=
  match VERCEL_GIT_PREVIOUS_SHA w with
  | None => 1
  | Some previous =>
      if String.eqb previous "" then 1
      else
        (* the fetches, when the commit is not there; [set -e] ends the
           script with the status of the second one when both fail *)
        let fetched :=
          if cat_file_finds w then 0
          else if fetch_depth_1 w =? 0 then 0
          else fetch_unshallow w in
        if negb (fetched =? 0) then fetched
        else
          match VERCEL_GIT_COMMIT_SHA w with
          | None => 1 (* [set -u]: unbound variable *)
          | Some _ => if diff_quiet w =? 0 then 0 else 1
          end
  end%Z.

End BuildGate.

(** * Properties *)

(** ** The built-ins on small inputs *)

Example parseInt_examples :
  Str.parseInt "15" = Some 15%Z
  /\ Str.parseInt "  -12abc" = Some (-12)%Z
  /\ Str.parseInt "+7.9" = Some 7%Z
  /\ Str.parseInt "" = None
  /\ Str.parseInt "-" = None
  /\ Str.parseInt "abc" = None.
Proof. repeat split. Qed.

Example split_trim_examples :
  Str.split "," "" = [""]
  /\ Str.split "," "a,,b" = ["a"; ""; "b"]
  /\ List.map Str.trim (Str.split "," " Stable Income ,High Debt, ") = ["Stable Income"; "High Debt"; ""]
  /\ Str.join ", " ["Stable Income"; "High Debt"] = "Stable Income, High Debt"
  /\ Str.join ", " [] = ""
  /\ Str.toUpperCase "aapl" = "AAPL"
  /\ Str.toUpperCase "Brk.b" = "BRK.B".
Proof. repeat split. Qed.

Example ToString_examples :
  ToString (JNum 175.5) = inr "175.5"
  /\ ToString (JNum (-3)) = inr "-3"
  /\ ToString (JArr [JNum 1; JNull; JStr "a"; JArr [JBool true]]) = inr "1,,a,true"
  /\ ToString (JObj [("loc", JStr "body")]) = inr "[object Object]"
  /\ ToString (JObj [("toString", JNum 1)]) = inl TypeError_not_primitive.
Proof. repeat split. Qed.

Example JSON_parse_examples :
  JsonText.JSON_parse "{}" = inr (JObj [])
  /\ JsonText.JSON_parse " [1, -2.50, 1e2, true, null] "
     = inr (JArr [JNum 1; JNum (-5 # 2); JNum 100; JBool true; JNull])
  /\ JsonText.JSON_parse "null" = inr JNull
  /\ JsonText.JSON_parse "" = inl JsonText.SyntaxError_message
  /\ JsonText.JSON_parse "[1,]" = inl JsonText.SyntaxError_message
  /\ JsonText.JSON_parse "01" = inl JsonText.SyntaxError_message
  /\ JsonText.JSON_parse "Error" = inl JsonText.SyntaxError_message.
Proof. repeat split; vm_compute; reflexivity. Qed.

(** ** The forecast transform *)

Section Forecast.

Implicit Types (d : ForecastPoint) (data hs fs : list ForecastPoint).

Lemma is_history_not_forecast d : is_history d = true -> is_forecast d = false.
Proof.
  unfold is_history, is_forecast. intros H%String.eqb_eq. now rewrite H.
Qed.

Lemma is_forecast_not_history d : is_forecast d = true -> is_history d = false.
Proof.
  unfold is_history, is_forecast. intros H%String.eqb_eq. now rewrite H.
Qed.

Lemma filter_keeps_all (p : ForecastPoint -> bool) data :
  forallb p data = true -> List.filter p data = data.
Proof.
  induction data as [|d data IH]; simpl; [easy|].
  intros [Hd Hrest]%andb_true_iff. rewrite Hd. f_equal. auto.
Qed.

Lemma filter_drops_all (p q : ForecastPoint -> bool) data :
  (forall d, q d = true -> p d = false) ->
  forallb q data = true -> List.filter p data = [].
Proof.
  intros Hpq. induction data as [|d data IH]; simpl; [easy|].
  intros [Hd Hrest]%andb_true_iff. rewrite (Hpq d Hd). auto.
Qed.

(** On a run of history points followed by a run of forecast points the two
    filters cut the sequence at the boundary. *)
Lemma filters_split hs fs :
  forallb is_history hs = true -> forallb is_forecast fs = true ->
  List.filter is_history (hs ++ fs) = hs /\ List.filter is_forecast (hs ++ fs) = fs.
Proof.
  intros Hh Hf. rewrite !List.filter_app.
  rewrite (filter_keeps_all _ _ Hh), (filter_keeps_all _ _ Hf).
  rewrite (filter_drops_all is_history is_forecast fs is_forecast_not_history Hf).
  rewrite (filter_drops_all is_forecast is_history hs is_history_not_forecast Hh).
  now rewrite app_nil_r.
Qed.

(** The guarded read of the last element is [last]. *)
Lemma guarded_last (l rest alt : list ForecastPoint) :
  (if 0 <? length l then option_list (l !! (length l - 1)) ++ rest else alt)
  = match last l with Some p => p :: rest | None => alt end.
Proof.
  destruct l as [|x l _] using rev_ind; [reflexivity|].
  rewrite last_snoc, length_app. simpl length.
  replace (0 <? length l + 1) with true by (symmetry; apply Nat.ltb_lt; lia).
  replace (length l + 1 - 1) with (length l + 0) by lia.
  now rewrite lookup_app_r, Nat.add_0_r, Nat.sub_diag by lia.
Qed.

Lemma guarded_head (l : list ForecastPoint) :
  (if 0 <? length l then option_list (l !! 0) else []) = option_list (head l).
Proof. now destruct l. Qed.

End Forecast.

(** C1, as the claim states it, on [StockChart]: on the mock series its
    connector is the two boundary points and not the five the claim names,
    and on a series with forecast points only it is empty and not the
    forecast series. *)
Lemma StockChart_connector_differs :
  (StockChart.connectorData <$> StockChart.StockChart (Some mock_forecast))
    = Some [ {| month := "Aug"; price := 185%Q; type := "history" |};
             {| month := "Sep"; price := 190%Q; type := "forecast" |} ]
  /\ (StockChart.connectorData <$> StockChart.StockChart (Some mock_forecast))
       <> Some mock_connector
  /\ (StockChart.connectorData
        <$> StockChart.StockChart (Some [ {| month := "Sep"; price := 190%Q; type := "forecast" |} ]))
     = Some []
  /\ (StockChart.forecastData
        <$> StockChart.StockChart (Some [ {| month := "Sep"; price := 190%Q; type := "forecast" |} ]))
     = Some [ {| month := "Sep"; price := 190%Q; type := "forecast" |} ].
Proof.
  repeat split; try reflexivity. vm_compute. discriminate.
Qed.

(** C1 (amended): [PriceForecast]'s connector is the last history point
    followed by the whole forecast series, and the forecast series alone when
    there is no history point; on the mock series it is the five points from
    Aug to Dec.  [StockChart]'s connector is the last history point followed
    by the first forecast point (when there is one), and empty when there is
    no history point. *)
Theorem connector_spec (data : list ForecastPoint) :
  let history := List.filter is_history data in
  let forecast := List.filter is_forecast data in
  let s := PriceForecast.PriceForecast data in
  PriceForecast.historyData s = history
  /\ PriceForecast.forecastData s = forecast
  /\ PriceForecast.connector s
     = match last history with
       | Some p => p :: forecast
       | None => forecast
       end
  /\ (history = [] -> PriceForecast.connector s = forecast)
  /\ PriceForecast.connector (PriceForecast.PriceForecast mock_forecast) = mock_connector
  /\ (forall c, StockChart.StockChart (Some data) = Some c ->
      StockChart.connectorData c
      = match last history with
        | Some p => p :: option_list (head forecast)
        | None => []
        end).
Proof.
  intros history forecast s. repeat split.
  - unfold s, PriceForecast.PriceForecast. simpl. fold history forecast.
    apply guarded_last.
  - intros E. unfold s, PriceForecast.PriceForecast. simpl. fold history forecast.
    now rewrite E.
  - intros c. unfold StockChart.StockChart.
    destruct (length data =? 0); [discriminate|]. intros [= <-]. simpl.
    fold history forecast. rewrite guarded_head. apply guarded_last.
Qed.

(** C7: on a run of history points followed by a run of forecast points,
    the history series followed by the forecast series is the input again,
    for [PriceForecast] and, whenever it draws a chart, for [StockChart]. *)
Theorem split_reconstructs (hs fs : list ForecastPoint)
    (Hh : forallb is_history hs = true) (Hf : forallb is_forecast fs = true) :
  let s := PriceForecast.PriceForecast (hs ++ fs) in
  PriceForecast.historyData s ++ PriceForecast.forecastData s = hs ++ fs
  /\ PriceForecast.historyData s = hs
  /\ PriceForecast.forecastData s = fs
  /\ (hs ++ fs <> [] ->
      exists c, StockChart.StockChart (Some (hs ++ fs)) = Some c
                /\ StockChart.historyData c ++ StockChart.forecastData c = hs ++ fs).
Proof.
  destruct (filters_split hs fs Hh Hf) as [Eh Ef].
  unfold PriceForecast.PriceForecast, StockChart.StockChart.
  cbn [PriceForecast.historyData PriceForecast.forecastData].
  rewrite Eh, Ef. repeat split.
  intros Hne. destruct (length (hs ++ fs) =? 0) eqn:E.
  - apply Nat.eqb_eq, length_zero_iff_nil in E. contradiction.
  - eexists. split; [reflexivity|].
    cbn [StockChart.historyData StockChart.forecastData]. reflexivity.
Qed.

(** C7 on the mock series: eight history points, then four forecast points. *)
Lemma split_reconstructs_mock :
  let s := PriceForecast.PriceForecast mock_forecast in
  PriceForecast.historyData s ++ PriceForecast.forecastData s = mock_forecast.
Proof.
  exact (proj1 (split_reconstructs (firstn 8 mock_forecast) (skipn 8 mock_forecast)
                  eq_refl eq_refl)).
Defined.

(** ** Strings *)

Section Strings.

Import Str.

Implicit Types (s t : string) (c : ascii) (xs : list string).

Lemma split_length c s : length (split c s) = S (occurrences c s).
Proof.
  induction s as [|a r IH]; [reflexivity|]. simpl.
  destruct (Ascii.eqb a c); simpl; [now rewrite IH|].
  destruct (split c r); simpl in *; lia.
Qed.

Lemma has_comma_cons a r :
  has_comma (String a r) = false -> Ascii.eqb a "," = false /\ has_comma r = false.
Proof.
  unfold has_comma. simpl. destruct (Ascii.eqb a ","); simpl; [discriminate|]. auto.
Qed.

Lemma split_no_comma s : has_comma s = false -> split "," s = [s].
Proof.
  induction s as [|a r IH]; [reflexivity|].
  intros [Ha Hr]%has_comma_cons. simpl. rewrite Ha, (IH Hr). reflexivity.
Qed.

Lemma split_before_comma s t :
  has_comma s = false -> split "," (s +:+ String "," t) = s :: split "," t.
Proof.
  induction s as [|a r IH]; [reflexivity|].
  intros [Ha Hr]%has_comma_cons. simpl. rewrite Ha, (IH Hr). reflexivity.
Qed.

Lemma join_cons x y xs : join ", " (x :: y :: xs) = x +:+ String "," (String " " (join ", " (y :: xs))).
Proof. reflexivity. Qed.

(** Splitting the displayed text gives the first entry as it is and every
    other one behind the space that [join] put after the comma. *)
Lemma split_join x xs :
  forallb (fun s => negb (has_comma s)) (x :: xs) = true ->
  split "," (join ", " (x :: xs)) = x :: List.map (String " ") xs.
Proof.
  revert x. induction xs as [|y xs IH]; intros x H.
  - simpl in H. rewrite andb_true_r in H. apply negb_true_iff in H.
    simpl. now apply split_no_comma.
  - apply andb_true_iff in H as [Hx H]. apply negb_true_iff in Hx.
    rewrite join_cons, split_before_comma by assumption.
    f_equal. change (split "," (String " " ?t)) with
      (match split "," t with seg :: segs => String " " seg :: segs
                            | [] => [String " " EmptyString] end).
    now rewrite (IH y H).
Qed.

Lemma trimEnd_id s d : last_char s = Some d -> is_whitespace d = false -> trimEnd s = s.
Proof.
  induction s as [|a r IH]; [discriminate|]. intros Hl Hd.
  destruct r as [|b r'].
  - injection Hl as ->. simpl. now rewrite Hd.
  - change (last_char (String a (String b r'))) with (last_char (String b r')) in Hl.
    change (trimEnd (String a (String b r')))
      with (match trimEnd (String b r') with
            | EmptyString => if is_whitespace a then EmptyString else String a EmptyString
            | r0 => String a r0 end).
    now rewrite (IH Hl Hd).
Qed.

Lemma last_char_some a r : exists d, last_char (String a r) = Some d.
Proof.
  revert a. induction r as [|b r IH]; intros a; [now exists a|].
  destruct (IH b) as [d Hd]. exists d. exact Hd.
Qed.

Lemma trim_id s : no_edge_whitespace s = true -> trim s = s.
Proof.
  destruct s as [|a r]; [reflexivity|]. unfold no_edge_whitespace, trim.
  intros [Ha Hl]%andb_true_iff. apply negb_true_iff in Ha.
  simpl trimStart. rewrite Ha.
  destruct (last_char_some a r) as [d Hd]. rewrite Hd in Hl.
  apply negb_true_iff in Hl. exact (trimEnd_id _ d Hd Hl).
Qed.

Lemma trim_after_space s : no_edge_whitespace s = true -> trim (String " " s) = s.
Proof. intros H. unfold trim. simpl trimStart. now apply trim_id. Qed.

Lemma trim_split_join xs :
  xs <> [] -> forallb plain_entry xs = true ->
  List.map trim (split "," (join ", " xs)) = xs.
Proof.
  destruct xs as [|x xs]; [easy|]. intros _ H.
  assert (Hc : forallb (fun s => negb (has_comma s)) (x :: xs) = true).
  { apply forallb_forall. intros s Hs.
    apply (proj1 (forallb_forall _ _) H) in Hs.
    now apply andb_true_iff in Hs as [? _]. }
  rewrite (split_join x xs Hc). simpl in H.
  apply andb_true_iff in H as [Hx H].
  apply andb_true_iff in Hx as [_ Hx]. simpl. rewrite (trim_id x Hx). f_equal.
  clear Hc Hx. induction xs as [|y xs IH]; [reflexivity|].
  simpl in H. apply andb_true_iff in H as [Hy H].
  apply andb_true_iff in Hy as [_ Hy].
  simpl List.map. rewrite (trim_after_space y Hy). f_equal. now apply IH.
Qed.

End Strings.

(** ** Trimming and upper-casing *)

Section Normal_forms.

Import Str.

Implicit Types (s t : string) (c : ascii) (xs : list string).

Lemma trimStart_cases s :
  trimStart s = EmptyString
  \/ exists c r, trimStart s = String c r /\ is_whitespace c = false.
Proof.
  induction s as [|a r IH]; [now left|]. simpl.
  destruct (is_whitespace a) eqn:E; [exact IH|]. right. now exists a, r.
Qed.

Lemma trimEnd_cons c r :
  is_whitespace c = false -> exists r', trimEnd (String c r) = String c r'.
Proof.
  intros Hc. simpl. rewrite Hc. destruct (trimEnd r); eauto.
Qed.

Lemma trimEnd_last s d : last_char (trimEnd s) = Some d -> is_whitespace d = false.
Proof.
  induction s as [|a r IH]; [discriminate|]. simpl.
  destruct (trimEnd r) as [|b r'] eqn:E.
  - destruct (is_whitespace a) eqn:Ea; [discriminate|]. now intros [= <-].
  - intros H. apply IH. exact H.
Qed.

(** What [trim] returns has no white space at either end. *)
Lemma trim_no_edge_whitespace s : no_edge_whitespace (trim s) = true.
Proof.
  unfold trim. destruct (trimStart_cases s) as [-> | (c & r & -> & Hc)]; [reflexivity|].
  destruct (trimEnd_cons c r Hc) as [r' E].
  pose proof (trimEnd_last (String c r)) as Hl. rewrite E in *.
  unfold no_edge_whitespace. rewrite Hc. simpl negb. rewrite andb_true_l.
  destruct (last_char (String c r')) as [d|]; [|reflexivity].
  now rewrite (Hl d eq_refl).
Qed.

Lemma occurrences_trimStart c s : occurrences c (trimStart s) <= occurrences c s.
Proof.
  induction s as [|a r IH]; [reflexivity|]. simpl.
  destruct (is_whitespace a); simpl; lia.
Qed.

Lemma occurrences_trimEnd c s : occurrences c (trimEnd s) <= occurrences c s.
Proof.
  induction s as [|a r IH]; [reflexivity|]. simpl.
  destruct (trimEnd r) as [|b r'].
  - destruct (is_whitespace a); simpl; lia.
  - simpl in *. lia.
Qed.

Lemma trim_no_comma s : has_comma s = false -> has_comma (trim s) = false.
Proof.
  unfold has_comma, trim. intros H%negb_false_iff%Nat.eqb_eq.
  apply negb_false_iff, Nat.eqb_eq.
  pose proof (occurrences_trimEnd "," (trimStart s)).
  pose proof (occurrences_trimStart "," s). lia.
Qed.

(** The segments of a split hold no separator. *)
Lemma split_segments_no_comma s :
  forallb (fun seg => negb (has_comma seg)) (split "," s) = true.
Proof.
  induction s as [|a r IH]; [reflexivity|]. simpl.
  destruct (Ascii.eqb a ",") eqn:Ea; [exact IH|].
  destruct (split "," r) as [|seg segs]; simpl in *.
  - unfold has_comma. simpl. now rewrite Ea.
  - apply andb_true_iff in IH as [Hseg Hsegs]. rewrite Hsegs, andb_true_r.
    unfold has_comma in *. simpl. now rewrite Ea.
Qed.

Lemma split_nonempty c s : split c s <> [].
Proof.
  pose proof (split_length c s) as H. destruct (split c s); [discriminate|easy].
Qed.

(** The entries the financial-condition handlers store. *)
Lemma parsed_entries_plain raw :
  List.map trim (split "," raw) <> []
  /\ forallb plain_entry (List.map trim (split "," raw)) = true.
Proof.
  split.
  - pose proof (split_nonempty "," raw). now destruct (split "," raw).
  - pose proof (split_segments_no_comma raw) as H.
    induction (split "," raw) as [|seg segs IH]; [reflexivity|].
    simpl in *. apply andb_true_iff in H as [Hseg Hsegs].
    rewrite (IH Hsegs), andb_true_r. unfold plain_entry.
    apply negb_true_iff in Hseg.
    fold (trim seg).
    now rewrite (trim_no_comma seg Hseg), trim_no_edge_whitespace.
Qed.

Lemma trimEnd_space s : trimEnd (s +:+ " ") = trimEnd s.
Proof.
  induction s as [|a r IH]; [reflexivity|].
  change (String a r +:+ " ") with (String a (r +:+ " ")).
  simpl trimEnd. now rewrite IH.
Qed.

Lemma trimStart_space s :
  trimStart (s +:+ " ") = match trimStart s with
                          | EmptyString => EmptyString
                          | t => t +:+ " "
                          end.
Proof.
  induction s as [|a r IH]; [reflexivity|].
  change (String a r +:+ " ") with (String a (r +:+ " ")). simpl.
  destruct (is_whitespace a); [exact IH|reflexivity].
Qed.

Lemma trim_space s : trim (s +:+ " ") = trim s.
Proof.
  unfold trim. rewrite trimStart_space.
  destruct (trimStart s) as [|a r]; [reflexivity|]. apply trimEnd_space.
Qed.

(** A space typed at the end of the text lands at the end of the last
    segment. *)
Lemma split_space s :
  exists init last,
    split "," s = init ++ [last]
    /\ split "," (s +:+ " ") = init ++ [last +:+ " "].
Proof.
  induction s as [|a r (init & last & E & E')]; [now exists [], EmptyString|].
  change (String a r +:+ " ") with (String a (r +:+ " ")). simpl.
  destruct (Ascii.eqb a ",").
  - exists (EmptyString :: init), last. now rewrite E, E'.
  - rewrite E, E'. destruct init as [|seg segs].
    + now exists [], (String a last).
    + now exists (String a seg :: segs), last.
Qed.

End Normal_forms.

(** ** The handlers' transformations against their descriptions *)

Section Transformations.

Import Str.

Implicit Types (s t : string) (c : ascii).

Lemma upper_char_upper_case_of c : upper_case_of c (upper_char c).
Proof. destruct c as [[] [] [] [] [] [] [] []]; vm_compute; reflexivity. Qed.

Lemma toUpperCase_upper_cased s : upper_cased s (toUpperCase s).
Proof.
  unfold upper_cased. induction s as [|c r IH]; simpl; constructor;
    [apply upper_char_upper_case_of | exact IH].
Qed.

Lemma join_split c s : join (String c EmptyString) (split c s) = s.
Proof.
  unfold join. induction s as [|a r IH]; [reflexivity|]. simpl split.
  pose proof (split_nonempty c r) as Hne.
  destruct (split c r) as [|seg segs]; [easy|].
  destruct (Ascii.eqb_spec a c) as [->|Hac].
  - change (String c (String.concat (String c EmptyString) (seg :: segs)) = String c r).
    now f_equal.
  - destruct segs as [|seg' segs'].
    + change (String a seg = String a r). f_equal. exact IH.
    + change (String a (String.concat (String c EmptyString) (seg :: seg' :: segs'))
              = String a r).
      now f_equal.
Qed.

Lemma trimStart_decompose s :
  exists before, s = before +:+ trimStart s /\ all_whitespace before = true.
Proof.
  induction s as [|a r (before & E & Hb)]; [now exists EmptyString|]. simpl.
  destruct (is_whitespace a) eqn:Ea.
  - exists (String a before). simpl. rewrite Ea, Hb. split; [|reflexivity].
    change (String a r = String a (before +:+ trimStart r)). now f_equal.
  - now exists EmptyString.
Qed.

Lemma trimEnd_decompose s :
  exists behind, s = trimEnd s +:+ behind /\ all_whitespace behind = true.
Proof.
  induction s as [|a r (behind & E & Hb)]; [now exists EmptyString|]. simpl.
  destruct (trimEnd r) as [|b t] eqn:Et.
  - change (r = behind) in E. rewrite <- E in Hb. destruct (is_whitespace a) eqn:Ea.
    + exists (String a r). simpl. now rewrite Ea, Hb.
    + now exists r.
  - exists behind. split; [|exact Hb].
    change (String a r = String a (String b t +:+ behind)). now f_equal.
Qed.

Lemma append_assoc s t u : (s +:+ t) +:+ u = s +:+ (t +:+ u).
Proof.
  induction s as [|a r IH]; [reflexivity|].
  change (String a ((r +:+ t) +:+ u) = String a (r +:+ (t +:+ u))). now f_equal.
Qed.

(** [trim] cuts white space, and only white space, off the two ends. *)
Lemma trim_trimmed_of s : trimmed_of s (trim s).
Proof.
  destruct (trimStart_decompose s) as (before & E1 & Hb1).
  destruct (trimEnd_decompose (trimStart s)) as (behind & E2 & Hb2).
  exists before, behind. repeat split; try assumption.
  - unfold trim. now rewrite <- E2.
  - apply trim_no_edge_whitespace.
Qed.

End Transformations.

(** ** The input profile *)

(** C3: [setInput] stores the value under its key and leaves every other
    field of the profile, and the rest of the store, as they were.  The
    handlers store, under [ticker], the text upper-cased: every letter a to
    z replaced by its capital and every other character kept; under
    [financialCondition], the text cut at its commas (the segments hold no
    comma and, joined by commas, give the text again; there is one more of
    them than there are commas: none is dropped), each segment without the
    white space at its two ends and nothing else removed; under
    [riskTolerance] and [tradingPreferences], the text as it is; and under
    [expectedReturn], the number the handler has parsed, as it is.  No
    handler touches a field other than its own.  [handleChange] of
    SearchForm does the same on its form state. *)
Theorem setInput_read_back (state : App.Store) (prev : gmap string FieldValue)
    (key : string) (value : FieldValue) (raw : string) :
  App.userInput (App.setInput key value state) !! key = Some value
  /\ (forall k, k <> key ->
      App.userInput (App.setInput key value state) !! k = App.userInput state !! k)
  /\ App.isLoading (App.setInput key value state) = App.isLoading state
  /\ App.apiError (App.setInput key value state) = App.apiError state
  /\ App.analysisResults (App.setInput key value state) = App.analysisResults state
  /\ App.userInput (App.onChange_ticker raw state) !! "ticker"
     = Some (FString (Str.toUpperCase raw))
  /\ App.userInput (App.onChange_financialCondition raw state) !! "financialCondition"
     = Some (FStrings (List.map Str.trim (Str.split "," raw)))
  /\ length (List.map Str.trim (Str.split "," raw)) = S (Str.occurrences "," raw)
  /\ App.userInput (App.onChange_riskTolerance raw state) !! "riskTolerance"
     = Some (FString raw)
  /\ App.userInput (App.onChange_tradingPreferences raw state) !! "tradingPreferences"
     = Some (FString raw)
  /\ SearchForm.handleChange key value prev !! key = Some value
  /\ (forall k, k <> key -> SearchForm.handleChange key value prev !! k = prev !! k)
  /\ SearchForm.onChange_ticker raw prev !! "ticker" = Some (FString (Str.toUpperCase raw))
  /\ SearchForm.onChange_financialCondition raw prev !! "financialCondition"
     = Some (FStrings (List.map Str.trim (Str.split "," raw)))
  /\ (exists stored,
        App.userInput (App.onChange_ticker raw state) !! "ticker" = Some (FString stored)
        /\ SearchForm.onChange_ticker raw prev !! "ticker" = Some (FString stored)
        /\ upper_cased raw stored)
  /\ (exists segments entries,
        App.userInput (App.onChange_financialCondition raw state) !! "financialCondition"
          = Some (FStrings entries)
        /\ SearchForm.onChange_financialCondition raw prev !! "financialCondition"
           = Some (FStrings entries)
        /\ Str.join "," segments = raw
        /\ forallb (fun segment => negb (Str.has_comma segment)) segments = true
        /\ Forall2 trimmed_of segments entries)
  /\ (forall n : Z, Str.parseInt raw = Some n ->
      App.userInput (App.onChange_expectedReturn raw state) !! "expectedReturn"
      = Some (FNumber n))
  /\ SearchForm.onValueChange_riskTolerance raw prev !! "riskTolerance" = Some (FString raw)
  /\ SearchForm.onChange_tradingPreferences raw prev !! "tradingPreferences"
     = Some (FString raw)
  /\ (forall k,
      (k <> "ticker" ->
       App.userInput (App.onChange_ticker raw state) !! k = App.userInput state !! k)
      /\ (k <> "financialCondition" ->
          App.userInput (App.onChange_financialCondition raw state) !! k
          = App.userInput state !! k)
      /\ (k <> "expectedReturn" ->
          App.userInput (App.onChange_expectedReturn raw state) !! k
          = App.userInput state !! k)
      /\ (k <> "riskTolerance" ->
          App.userInput (App.onChange_riskTolerance raw state) !! k
          = App.userInput state !! k)
      /\ (k <> "tradingPreferences" ->
          App.userInput (App.onChange_tradingPreferences raw state) !! k
          = App.userInput state !! k)).
Proof.
  unfold App.onChange_ticker, App.onChange_financialCondition,
    App.onChange_riskTolerance, App.onChange_tradingPreferences,
    App.onChange_expectedReturn,
    SearchForm.onChange_ticker, SearchForm.onChange_financialCondition,
    SearchForm.onValueChange_riskTolerance, SearchForm.onChange_tradingPreferences,
    SearchForm.handleChange, App.setInput, App.set.
  cbn [App.userInput App.isLoading App.apiError App.analysisResults
       App.set_userInput App.set_isLoading App.set_apiError App.set_analysisResults
       default from_option id].
  repeat match goal with |- _ /\ _ => split end;
    try apply lookup_insert_eq; try reflexivity.
  - intros k Hk. now apply lookup_insert_ne.
  - now rewrite length_map, split_length.
  - intros k Hk. now apply lookup_insert_ne.
  - exists (Str.toUpperCase raw). rewrite !lookup_insert_eq.
    repeat split. apply toUpperCase_upper_cased.
  - exists (Str.split "," raw), (List.map Str.trim (Str.split "," raw)).
    rewrite !lookup_insert_eq. repeat split.
    + apply (join_split "," raw).
    + apply split_segments_no_comma.
    + induction (Str.split "," raw) as [|segment segments IH]; simpl; constructor;
        [apply trim_trimmed_of | exact IH].
  - intros n ->. apply lookup_insert_eq.
  - intros k. repeat split; intros Hk; now apply lookup_insert_ne.
Qed.

(** C6, as the claim states it: a text that does not parse (the empty
    text, which is what a number input reports for anything that is not a
    number) replaces the stored 15, by [NaN] in the store of App.jsx and by
    0 in SearchForm. *)
Lemma expectedReturn_not_retained :
  Str.parseInt "" = None
  /\ App.userInput App.initial !! "expectedReturn" = Some (FNumber 15)
  /\ App.userInput (App.onChange_expectedReturn "" App.initial) !! "expectedReturn"
     = Some FNaN
  /\ SearchForm.onChange_expectedReturn "" (App.userInput App.initial) !! "expectedReturn"
     = Some (FNumber 0).
Proof. repeat split; vm_compute; reflexivity. Qed.

(** C6 (amended): when the text does not parse, the store of App.jsx takes
    [NaN] and the form state of SearchForm takes 0, whatever was stored
    before; when it parses, both take the parsed integer as it is, of any
    size and sign. *)
Theorem expectedReturn_stored (raw : string) (state : App.Store)
    (prev : gmap string FieldValue) :
  (Str.parseInt raw = None ->
   App.userInput (App.onChange_expectedReturn raw state) !! "expectedReturn" = Some FNaN
   /\ SearchForm.onChange_expectedReturn raw prev !! "expectedReturn" = Some (FNumber 0))
  /\ (forall n : Z, Str.parseInt raw = Some n ->
      App.userInput (App.onChange_expectedReturn raw state) !! "expectedReturn"
      = Some (FNumber n)
      /\ SearchForm.onChange_expectedReturn raw prev !! "expectedReturn" = Some (FNumber n)).
Proof.
  unfold App.onChange_expectedReturn, SearchForm.onChange_expectedReturn,
    SearchForm.handleChange, App.setInput, App.set.
  cbn [App.userInput App.set_userInput default from_option id].
  split.
  - intros ->. split; apply lookup_insert_eq.
  - intros n ->. split; rewrite lookup_insert_eq; [reflexivity|].
    destruct (Z.eqb_spec n 0) as [->|]; reflexivity.
Qed.

(** C10: showing the stored entries joined by a comma and a space and
    reading the text back gives the same entries, when there is at least one
    and each is free of commas and of white space at its ends; the empty list
    comes back as the list of one empty entry. *)
Theorem financialCondition_roundtrip (xs : list string) (state : App.Store)
    (prev : gmap string FieldValue)
    (Hne : xs <> []) (Hplain : forallb Str.plain_entry xs = true) :
  List.map Str.trim (Str.split "," (Str.join ", " xs)) = xs
  /\ App.userInput
       (App.onChange_financialCondition (App.display_financialCondition xs) state)
       !! "financialCondition" = Some (FStrings xs)
  /\ SearchForm.onChange_financialCondition (SearchForm.display_financialCondition xs) prev
       !! "financialCondition" = Some (FStrings xs)
  /\ List.map Str.trim (Str.split "," (Str.join ", " [])) = [EmptyString]
  /\ App.userInput
       (App.onChange_financialCondition (App.display_financialCondition []) state)
       !! "financialCondition" = Some (FStrings [EmptyString]).
Proof.
  pose proof (trim_split_join xs Hne Hplain) as E.
  unfold App.onChange_financialCondition, App.display_financialCondition,
    SearchForm.onChange_financialCondition, SearchForm.display_financialCondition,
    SearchForm.handleChange, App.setInput, App.set.
  cbn [App.userInput App.set_userInput default from_option id].
  rewrite !lookup_insert_eq, E. repeat split.
Qed.

(** C10 on three entries, the last one empty. *)
Lemma financialCondition_roundtrip_example :
  List.map Str.trim (Str.split "," (Str.join ", " ["Stable Income"; "High Debt"; ""]))
  = ["Stable Income"; "High Debt"; ""].
Proof.
  exact (proj1 (financialCondition_roundtrip ["Stable Income"; "High Debt"; ""]
                  App.initial ∅ ltac:(discriminate) eq_refl)).
Defined.

(** ** The analysis session *)

Section Session.

Import App.

Variable rt : Runtime.

Implicit Types (o : Outcome) (state : Store) (error : Error) (aiData : Json).

Ltac js_unfold :=
  unfold ToString_opt, ToString, get, await, call_startsWith,
    mbind, Completion_bind, mret, Completion_ret, throw in *.

(** Case analysis on the tests a hypothesis still has to go through, the
    innermost first. *)
Ltac js_cases H :=
  repeat (cbn [data response request message truthy_opt truthy negb] in H;
          match type of H with
          | context [match ?x with _ => _ end] =>
              lazymatch x with
              | context [match _ with _ => _ end] => fail
              | _ => destruct x eqn:?
              end
          end).

Lemma settle_settlement o state :
  fetchAnalysis_settle rt o state
  = match settlement rt o with
    | Stored aiData =>
        {| userInput := userInput state; isLoading := false;
           apiError := apiError state; analysisResults := aiData |}
    | Failed errorMessage =>
        {| userInput := userInput state; isLoading := false;
           apiError := Some errorMessage; analysisResults := analysisResults state |}
    | Escaped => state
    end.
Proof.
  unfold fetchAnalysis_settle, settlement.
  destruct (try_block rt o) as [error|aiData]; [|reflexivity].
  destruct (catch_block rt error); reflexivity.
Qed.

(** What the [try] block throws on a fulfilled request is a plain [Error]. *)
Lemma try_block_throws_plain r error :
  try_block rt (Fulfilled r) = inl error -> response error = None /\ request error = false.
Proof.
  destruct r as [d st]. unfold try_block. js_unfold. intros H. js_cases H;
    first [discriminate | injection H as <-; split; reflexivity].
Qed.

Lemma try_block_rejected error : try_block rt (Rejected error) = inl error.
Proof. reflexivity. Qed.

Lemma catch_block_plain error :
  response error = None -> request error = false ->
  catch_block rt error = inr (message error).
Proof. unfold catch_block. now intros -> ->. Qed.

(** The [try] block returns exactly on the responses described by
    [Accepted]. *)
Lemma try_block_returns o aiData : try_block rt o = inr aiData <-> Accepted rt o aiData.
Proof.
  split.
  - destruct o as [[d st]|error]; [|discriminate].
    unfold try_block. js_unfold. intros H. js_cases H; try discriminate.
    injection H as <-.
    eexists {| data := JObj _; status := st |}, _, _.
    repeat split; try eassumption.
    intros ->. discriminate.
  - intros (r & members & text & -> & Hd & Herr & Ha & Ht & Hp & Hparse).
    unfold try_block. js_unfold.
    rewrite Hd, Herr, Ha. cbn [truthy_opt truthy printable].
    apply String.eqb_neq in Ht. rewrite Ht. cbn [negb].
    rewrite Hp. cbn [printable ToString_text]. now rewrite Hparse.
Qed.

Lemma settlement_stored o aiData : settlement rt o = Stored aiData <-> Accepted rt o aiData.
Proof.
  rewrite <- try_block_returns. unfold settlement.
  destruct (try_block rt o) as [error|v].
  - destruct (catch_block rt error); split; discriminate.
  - split; [now intros [= ->] | now intros [= ->]].
Qed.

Lemma settlement_escaped o : settlement rt o = Escaped <-> unhandled_rejection o = true.
Proof.
  unfold settlement. destruct o as [r|error].
  - destruct (try_block rt (Fulfilled r)) as [e|v] eqn:E; [|split; discriminate].
    destruct (try_block_throws_plain r e E) as [H1 H2].
    rewrite (catch_block_plain e H1 H2). split; discriminate.
  - rewrite try_block_rejected. unfold catch_block, unhandled_rejection.
    js_unfold. destruct error as [[[d st]|] req msg]; cbn [response data request message].
    + destruct d as [| | | | |members];
        try (split; intros; first [reflexivity | discriminate]).
      destruct (last_member "detail" members) as [detail|]; cbn [truthy_opt].
      * destruct (truthy detail), (printable detail);
          split; intros; first [reflexivity | discriminate].
      * split; discriminate.
    + destruct req; split; discriminate.
Qed.

(** Every settlement but a successful one leaves the result alone. *)
Lemma settlement_cases o :
  (exists aiData, settlement rt o = Stored aiData /\ Accepted rt o aiData)
  \/ ((exists errorMessage, settlement rt o = Failed errorMessage)
      /\ forall aiData, ~ Accepted rt o aiData)
  \/ (settlement rt o = Escaped /\ forall aiData, ~ Accepted rt o aiData).
Proof.
  destruct (settlement rt o) as [v|m|] eqn:E.
  - left. exists v. split; [reflexivity|]. now apply settlement_stored.
  - right. left. split; [now exists m|]. intros v Hv%settlement_stored. congruence.
  - right. right. split; [reflexivity|]. intros v Hv%settlement_stored. congruence.
Qed.

(** One uninterrupted call, by the way the request settles. *)
Lemma fetchAnalysis_settlement o state :
  fetchAnalysis rt o state
  = match settlement rt o with
    | Stored aiData =>
        {| userInput := userInput state; isLoading := false;
           apiError := None; analysisResults := aiData |}
    | Failed errorMessage =>
        {| userInput := userInput state; isLoading := false;
           apiError := Some errorMessage; analysisResults := analysisResults state |}
    | Escaped =>
        {| userInput := userInput state; isLoading := true;
           apiError := None; analysisResults := analysisResults state |}
    end.
Proof.
  unfold fetchAnalysis. rewrite settle_settlement.
  destruct (settlement rt o); reflexivity.
Qed.

(** C2 (amended): leaving aside the rejections on which the [catch] block
    throws in its turn, a call of [fetchAnalysis] ends with the parsed
    payload stored, loading off and no error exactly when the request is
    fulfilled with an object body that has no truthy [error] member and
    whose [analysis] member is a non-empty string that does not start with
    "Error:" and that [JSON.parse] accepts, whatever the value parsed; in
    every other case it ends with loading off, an error message stored and
    the previous result in place. *)
Theorem fetchAnalysis_outcome o state (Hcatch : unhandled_rejection o = false) :
  (forall aiData,
      Accepted rt o aiData
      <-> fetchAnalysis rt o state
          = {| userInput := userInput state; isLoading := false;
               apiError := None; analysisResults := aiData |})
  /\ ((forall aiData, ~ Accepted rt o aiData) ->
      exists errorMessage,
        fetchAnalysis rt o state
        = {| userInput := userInput state; isLoading := false;
             apiError := Some errorMessage; analysisResults := analysisResults state |}).
Proof.
  rewrite fetchAnalysis_settlement.
  destruct (settlement_cases o) as [(v & E & Hv) | [((m & E) & Hno) | (E & _)]].
  - rewrite E. split.
    + intros aiData. split.
      * intros Hacc%settlement_stored. congruence.
      * intros [= <-]. exact Hv.
    + intros Hno. destruct (Hno v Hv).
  - rewrite E. split.
    + intros aiData. split.
      * intros Hacc. destruct (Hno _ Hacc).
      * discriminate.
    + intros _. now exists m.
  - apply settlement_escaped in E. congruence.
Qed.

(** C4 (amended): the result starts as the mock data; an edit, a submission
    and a settlement that is not a success leave it as it was, and a
    successful settlement puts the parsed payload in its place.  So in every
    state the store can reach the result is the mock data or the payload of
    a successful settlement, whatever the dashboard shows. *)
Theorem analysisResults_written_by_success :
  analysisResults initial = mockData
  /\ (forall state key value,
      analysisResults (step rt state (Edit key value)) = analysisResults state)
  /\ (forall state, analysisResults (step rt state Submit) = analysisResults state)
  /\ (forall state o,
      (forall aiData, ~ Accepted rt o aiData) ->
      analysisResults (step rt state (Settle o)) = analysisResults state)
  /\ (forall state o aiData,
      Accepted rt o aiData -> analysisResults (step rt state (Settle o)) = aiData)
  /\ (forall events,
      analysisResults (run rt events initial) = mockData
      \/ exists o, In (Settle o) events
                   /\ Accepted rt o (analysisResults (run rt events initial))).
Proof.
  assert (Hfail : forall state o, (forall aiData, ~ Accepted rt o aiData) ->
            analysisResults (step rt state (Settle o)) = analysisResults state).
  { intros state o Hno. cbn [step]. rewrite settle_settlement.
    destruct (settlement_cases o) as [(v & E & Hv) | [((m & E) & _) | (E & _)]];
      [destruct (Hno v Hv) | now rewrite E | now rewrite E]. }
  assert (Hok : forall state o aiData, Accepted rt o aiData ->
            analysisResults (step rt state (Settle o)) = aiData).
  { intros state o v Hv%settlement_stored. cbn [step].
    now rewrite settle_settlement, Hv. }
  repeat split; try assumption.
  intros events. unfold run.
  induction events as [|e events IH] using rev_ind; [now left|].
  rewrite fold_left_app. cbn [fold_left].
  set (before := fold_left (step rt) events initial) in *.
  assert (Hkeep : analysisResults (step rt before e) = analysisResults before ->
            analysisResults (step rt before e) = mockData
            \/ exists o, In (Settle o) (events ++ [e])
                         /\ Accepted rt o (analysisResults (step rt before e))).
  { intros ->. destruct IH as [IH | (o & Hin & Hacc)]; [now left|].
    right. exists o. split; [apply in_or_app; now left | exact Hacc]. }
  destruct e as [key value | | o]; try (apply Hkeep; reflexivity).
  destruct (settlement_cases o) as [(v & E & Hv) | [(_ & Hno) | (_ & Hno)]].
  - right. exists o. split; [apply in_or_app; right; now left|].
    now rewrite (Hok before o v Hv).
  - apply Hkeep, Hfail, Hno.
  - apply Hkeep, Hfail, Hno.
Qed.

Lemma catch_block_response error r detail :
  response error = Some r -> get (data r) "detail" = inr detail ->
  catch_block rt error
  = if truthy_opt detail
    then match ToString_opt detail with
         | inr text => inr ("Server Error: " +:+ text)
         | inl e => inl e
         end
    else inr ("Server Error: " +:+ message error).
Proof.
  intros Hr Hd. unfold catch_block. rewrite Hr.
  unfold mbind at 1, Completion_bind at 1. rewrite Hd.
  destruct (truthy_opt detail); [|reflexivity].
  unfold mbind, Completion_bind. now destruct (ToString_opt detail).
Qed.

Lemma fetchAnalysis_rejected error state errorMessage :
  catch_block rt error = inr errorMessage ->
  apiError (fetchAnalysis rt (Rejected error) state) = Some errorMessage.
Proof.
  intros E. rewrite fetchAnalysis_settlement. unfold settlement.
  now rewrite try_block_rejected, E.
Qed.

(** C5 (amended): the message stored for a rejected request is, first, for
    an error that carries a response, "Server Error: " followed by the
    response's [detail] when that is truthy (and prints) and by the error's
    own message otherwise; second, for an error with no response but a
    request, the connection message that names the base URL; and otherwise
    the error's own message.  What the [try] block throws on a fulfilled
    request falls in the last case: its own message is stored. *)
Theorem errorMessage_priority error state :
  (forall r detail, response error = Some r -> get (data r) "detail" = inr detail ->
     (forall text, truthy_opt detail = true -> ToString_opt detail = inr text ->
        apiError (fetchAnalysis rt (Rejected error) state) = Some ("Server Error: " +:+ text))
     /\ (truthy_opt detail = false ->
         apiError (fetchAnalysis rt (Rejected error) state)
         = Some ("Server Error: " +:+ message error)))
  /\ (response error = None -> request error = true ->
      apiError (fetchAnalysis rt (Rejected error) state)
      = Some ("Connection Error: Is the Python server running at "
              +:+ API_BASE_URL rt +:+ "?"))
  /\ (response error = None -> request error = false ->
      apiError (fetchAnalysis rt (Rejected error) state) = Some (message error))
  /\ (forall r thrown, try_block rt (Fulfilled r) = inl thrown ->
      apiError (fetchAnalysis rt (Fulfilled r) state) = Some (message thrown)).
Proof.
  split; [|split; [|split]].
  - intros r detail Hr Hd. split.
    + intros text Ht Hs. apply fetchAnalysis_rejected.
      now rewrite (catch_block_response error r detail Hr Hd), Ht, Hs.
    + intros Hf. apply fetchAnalysis_rejected.
      now rewrite (catch_block_response error r detail Hr Hd), Hf.
  - intros Hr Hq. apply fetchAnalysis_rejected.
    unfold catch_block. now rewrite Hr, Hq.
  - intros Hr Hq. apply fetchAnalysis_rejected. now apply catch_block_plain.
  - intros r thrown E. rewrite fetchAnalysis_settlement. unfold settlement. rewrite E.
    destruct (try_block_throws_plain r thrown E) as [H1 H2].
    now rewrite (catch_block_plain thrown H1 H2).
Qed.

(** C8: a call of [fetchAnalysis] that ends with an error message stored
    leaves the profile and the result as they were before the call: only
    the loading flag and the error have been written.  In whatever state
    the settlement of that request finds the store, it leaves the profile
    and the result of that state alone. *)
Theorem failed_submit_frame o state errorMessage
    (Herror : apiError (fetchAnalysis rt o state) = Some errorMessage) :
  fetchAnalysis rt o state
  = {| userInput := userInput state; isLoading := false;
       apiError := Some errorMessage; analysisResults := analysisResults state |}
  /\ userInput (fetchAnalysis rt o state) = userInput state
  /\ analysisResults (fetchAnalysis rt o state) = analysisResults state
  /\ (forall state',
      userInput (fetchAnalysis_settle rt o state') = userInput state'
      /\ analysisResults (fetchAnalysis_settle rt o state') = analysisResults state').
Proof.
  rewrite fetchAnalysis_settlement in *.
  assert (E : settlement rt o = Failed errorMessage).
  { destruct (settlement rt o); cbn in Herror; congruence. }
  rewrite E. repeat split; intros; rewrite settle_settlement, E; reflexivity.
Qed.

(** C9 (amended): with two requests in flight, each settlement is one
    update of the store, applied in the order the requests settle, and it
    writes only its own fields: the result ends as the payload of the last
    successful settlement (the result from before, when neither succeeds),
    the error as the message of the last failed one (none, when neither
    fails), and loading is off once either has stored something.  When both
    succeed or both fail, the final state is the one the last settlement
    would have produced alone; when a failure is followed by a success the
    final state has the new result together with the message of the
    failure. *)
Theorem overlapping_submissions oa ob state :
  let final := run rt [Submit; Submit; Settle oa; Settle ob] state in
  userInput final = userInput state
  /\ analysisResults final
     = match settlement rt ob, settlement rt oa with
       | Stored aiData, _ => aiData
       | _, Stored aiData => aiData
       | _, _ => analysisResults state
       end
  /\ apiError final
     = match settlement rt ob, settlement rt oa with
       | Failed errorMessage, _ => Some errorMessage
       | _, Failed errorMessage => Some errorMessage
       | _, _ => None
       end
  /\ isLoading final
     = match settlement rt ob, settlement rt oa with
       | Escaped, Escaped => true
       | _, _ => false
       end
  /\ (forall va vb, Accepted rt oa va -> Accepted rt ob vb ->
      final = run rt [Submit; Settle ob] state)
  /\ (forall ma mb, settlement rt oa = Failed ma -> settlement rt ob = Failed mb ->
      final = run rt [Submit; Settle ob] state)
  /\ (forall ma vb, settlement rt oa = Failed ma -> Accepted rt ob vb ->
      final = {| userInput := userInput state; isLoading := false;
                 apiError := Some ma; analysisResults := vb |}).
Proof.
  cbn [run fold_left step]. rewrite !settle_settlement.
  repeat split.
  - destruct (settlement rt oa), (settlement rt ob); reflexivity.
  - destruct (settlement rt oa), (settlement rt ob); reflexivity.
  - destruct (settlement rt oa), (settlement rt ob); reflexivity.
  - destruct (settlement rt oa), (settlement rt ob); reflexivity.
  - intros va vb Ha%settlement_stored Hb%settlement_stored. now rewrite Ha, Hb.
  - intros ma mb Ha Hb. now rewrite Ha, Hb.
  - intros ma vb Ha Hb%settlement_stored. now rewrite Ha, Hb.
Qed.

End Session.

(** ** The session on the sample settlements *)

Section Runs.

Import App Sample.

(** C2, as the claim states it: a payload that parses but has nothing of
    the shape of an [AnalysisResult] is stored, with loading off and no
    error, and so is a payload that comes with an [error] member that is
    [null]. *)
Lemma unvalidated_payload_stored :
  JsonText.JSON_parse "{}" = inr (JObj [])
  /\ Shape.AnalysisResult (JObj []) = false
  /\ fetchAnalysis local_runtime (reply [("analysis", JStr "{}")]) initial
     = {| userInput := userInput initial; isLoading := false;
          apiError := None; analysisResults := JObj [] |}
  /\ fetchAnalysis local_runtime (reply [("error", JNull); ("analysis", JStr "{}")]) initial
     = {| userInput := userInput initial; isLoading := false;
          apiError := None; analysisResults := JObj [] |}.
Proof. repeat split; vm_compute; reflexivity. Qed.

(** C2 (amended) on a payload that parses to an array. *)
Lemma fetchAnalysis_outcome_example :
  fetchAnalysis local_runtime (reply [("analysis", JStr "[1]")]) initial
  = {| userInput := userInput initial; isLoading := false;
       apiError := None; analysisResults := JArr [JNum 1] |}.
Proof.
  apply (proj1 (fetchAnalysis_outcome local_runtime
                  (reply [("analysis", JStr "[1]")]) initial eq_refl)).
  exists {| data := JObj [("analysis", JStr "[1]")]; status := 200 |},
    [("analysis", JStr "[1]")], "[1]".
  repeat split; try reflexivity. discriminate.
Defined.

(** C4, as the claim states it: the result is the mock data, not [null],
    before any submission, while a request is in flight and after a failed
    one. *)
Lemma result_present_outside_success :
  analysisResults initial = mockData
  /\ DashboardDisplay (run local_runtime [Submit] initial) = Spinner
  /\ analysisResults (run local_runtime [Submit] initial) = mockData
  /\ DashboardDisplay (run local_runtime [Submit; Settle network_error] initial)
     = ErrorView connection_message
  /\ analysisResults (run local_runtime [Submit; Settle network_error] initial) = mockData
  /\ mockData <> JNull.
Proof. repeat split; try (vm_compute; reflexivity). discriminate. Qed.

(** C5, as the claim states it: with no response and no request on the
    error, the message stored is the error's own and not the generic
    "Failed to fetch analysis.". *)
Lemma own_message_stored :
  apiError (fetchAnalysis local_runtime
              (reply [("analysis", JStr "Error: model unavailable")]) initial)
  = Some "Error: model unavailable"
  /\ apiError (fetchAnalysis local_runtime
                 (Rejected {| response := None; request := false; message := "Invalid URL" |})
                 initial)
     = Some "Invalid URL"
  /\ "Invalid URL" <> "Failed to fetch analysis."
  /\ "Error: model unavailable" <> "Failed to fetch analysis.".
Proof. repeat split; try (vm_compute; reflexivity); discriminate. Qed.

(** C8 on a request that got no response. *)
Lemma failed_submit_frame_example :
  fetchAnalysis local_runtime network_error initial
  = {| userInput := userInput initial; isLoading := false;
       apiError := Some connection_message; analysisResults := mockData |}.
Proof.
  exact (proj1 (failed_submit_frame local_runtime network_error initial
                  connection_message eq_refl)).
Defined.

(** C9, as the claim states it: when the request that fails settles first
    and the one that succeeds settles last, the final state is not the one
    of the last settlement: it keeps the message of the failure, and the
    dashboard shows the error.  In the other order the final state has the
    payload of the success, which the failure alone would not have stored. *)
Lemma failure_then_success_keeps_error :
  let success := reply [("analysis", JStr "{}")] in
  let final := run local_runtime [Submit; Submit; Settle network_error; Settle success] initial in
  let last_alone := run local_runtime [Submit; Settle success] initial in
  let final' := run local_runtime [Submit; Submit; Settle success; Settle network_error] initial in
  let last_alone' := run local_runtime [Submit; Settle network_error] initial in
  apiError final = Some connection_message
  /\ apiError last_alone = None
  /\ DashboardDisplay final = ErrorView connection_message
  /\ DashboardDisplay last_alone = Dashboard (JObj [])
  /\ final <> last_alone
  /\ analysisResults final' = JObj []
  /\ analysisResults last_alone' = mockData
  /\ final' <> last_alone'.
Proof.
  repeat split; try (vm_compute; reflexivity).
  - intros H. apply (f_equal apiError) in H. vm_compute in H. discriminate.
  - intros H. apply (f_equal analysisResults) in H. vm_compute in H. discriminate.
Qed.

End Runs.

(** * Further properties *)


(** ** What the handlers store, and what typing again does to it *)

Section Stored_values.

Import Str.

Implicit Types (s : string) (c : ascii).

(** X1.  Whatever the text, the entries stored under [financialCondition]
    are at least one, each without comma and without white space at its
    ends; showing them and reading the shown text back gives the same
    entries, so the handler run on its own display leaves the store as it
    is. *)
Theorem financialCondition_stored_stable (raw : string) (state : App.Store) :
  let stored := List.map trim (split "," raw) in
  App.userInput (App.onChange_financialCondition raw state) !! "financialCondition"
    = Some (FStrings stored)
  /\ stored <> []
  /\ forallb plain_entry stored = true
  /\ List.map trim (split "," (join ", " stored)) = stored
  /\ App.onChange_financialCondition (App.display_financialCondition stored)
       (App.onChange_financialCondition raw state)
     = App.onChange_financialCondition raw state.
Proof.
  intros stored. destruct (parsed_entries_plain raw) as [Hne Hplain].
  fold stored in Hne, Hplain.
  pose proof (trim_split_join stored Hne Hplain) as E.
  repeat split; try assumption.
  - unfold App.onChange_financialCondition, App.setInput, App.set.
    cbn [App.userInput App.set_userInput default from_option id].
    apply lookup_insert_eq.
  - unfold App.onChange_financialCondition, App.display_financialCondition,
      App.setInput, App.set.
    cbn [App.userInput App.isLoading App.apiError App.analysisResults
         App.set_userInput App.set_isLoading App.set_apiError App.set_analysisResults
         default from_option id].
    fold stored. rewrite E. now rewrite insert_insert_eq.
Qed.

(** X2.  A space typed at the end of the financial-condition text is not
    stored: the handler stores the same entries with it and without it, in
    the store of App.jsx and in the form state of SearchForm. *)
Theorem financialCondition_trailing_space (raw : string) (state : App.Store)
    (prev : gmap string FieldValue) :
  App.onChange_financialCondition (raw +:+ " ") state
    = App.onChange_financialCondition raw state
  /\ SearchForm.onChange_financialCondition (raw +:+ " ") prev
     = SearchForm.onChange_financialCondition raw prev.
Proof.
  assert (E : List.map trim (split "," (raw +:+ " ")) = List.map trim (split "," raw)).
  { destruct (split_space raw) as (init & last & -> & ->).
    rewrite !map_app. simpl. now rewrite trim_space. }
  unfold App.onChange_financialCondition, SearchForm.onChange_financialCondition.
  now rewrite E.
Qed.

Lemma upper_char_idempotent c : upper_char (upper_char c) = upper_char c.
Proof. destruct c as [[] [] [] [] [] [] [] []]; reflexivity. Qed.

Lemma upper_char_not_lower c : is_lower (upper_char c) = false.
Proof. destruct c as [[] [] [] [] [] [] [] []]; reflexivity. Qed.

Lemma toUpperCase_idempotent s : toUpperCase (toUpperCase s) = toUpperCase s.
Proof.
  induction s as [|c r IH]; [reflexivity|]. simpl.
  now rewrite upper_char_idempotent, IH.
Qed.

Lemma toUpperCase_length s : String.length (toUpperCase s) = String.length s.
Proof. induction s as [|c r IH]; [reflexivity|]. simpl. now rewrite IH. Qed.

Lemma toUpperCase_no_lower s :
  forallb (fun c => negb (is_lower c)) (list_ascii_of_string (toUpperCase s)) = true.
Proof.
  induction s as [|c r IH]; [reflexivity|]. simpl.
  now rewrite upper_char_not_lower, IH.
Qed.

(** X3.  The text stored under [ticker] has the length of the text typed
    and no lower-case letter, and upper-casing it again changes nothing: the
    handler stores the same for a text and for its upper-case form. *)
Theorem ticker_stored_upper (raw : string) (state : App.Store)
    (prev : gmap string FieldValue) :
  App.userInput (App.onChange_ticker raw state) !! "ticker" = Some (FString (toUpperCase raw))
  /\ String.length (toUpperCase raw) = String.length raw
  /\ forallb (fun c => negb (is_lower c)) (list_ascii_of_string (toUpperCase raw)) = true
  /\ App.onChange_ticker (toUpperCase raw) state = App.onChange_ticker raw state
  /\ SearchForm.onChange_ticker (toUpperCase raw) prev = SearchForm.onChange_ticker raw prev.
Proof.
  repeat split.
  - unfold App.onChange_ticker, App.setInput, App.set.
    cbn [App.userInput App.set_userInput default from_option id].
    apply lookup_insert_eq.
  - apply toUpperCase_length.
  - apply toUpperCase_no_lower.
  - unfold App.onChange_ticker. now rewrite toUpperCase_idempotent.
  - unfold SearchForm.onChange_ticker. now rewrite toUpperCase_idempotent.
Qed.

Lemma of_uint_acc_value d p : Z.pos (Pos.of_uint_acc d p) = uint_value d (Z.pos p).
Proof.
  revert p. induction d; intros p; simpl; try reflexivity; rewrite IHd; f_equal; lia.
Qed.

Lemma of_uint_value d : Z.of_uint d = uint_value d 0.
Proof.
  unfold Z.of_uint. induction d; simpl; try reflexivity; try exact IHd;
    apply of_uint_acc_value.
Qed.

Lemma digits_uint d acc : digits (NilEmpty.string_of_uint d) acc true = Some (uint_value d acc).
Proof.
  revert acc. induction d; intros acc; simpl; try reflexivity;
    rewrite IHd; do 2 f_equal; unfold digit_value; simpl; lia.
Qed.

Lemma digits_uint_unseen d acc :
  d <> Decimal.Nil -> digits (NilEmpty.string_of_uint d) acc false = Some (uint_value d acc).
Proof.
  destruct d; intros H; try easy; simpl; rewrite digits_uint;
    do 2 f_equal; unfold digit_value; simpl; lia.
Qed.

Lemma parseInt_uint d :
  d <> Decimal.Nil -> parseInt (NilEmpty.string_of_uint d) = Some (Z.of_uint d).
Proof.
  intros H. rewrite of_uint_value, <- (digits_uint_unseen d 0 H).
  destruct d; easy.
Qed.

(** [parseInt] reads the decimal numeral of an integer back. *)
Lemma parseInt_numeral (n : Z) : parseInt (NilZero.string_of_int (Z.to_int n)) = Some n.
Proof.
  destruct n as [|p|p]; [reflexivity| |].
  - simpl. pose proof (DecimalPos.Unsigned.to_uint_nonnil p) as Hn.
    unfold NilZero.string_of_uint.
    destruct (Pos.to_uint p) eqn:E; try easy;
      rewrite <- E in *; rewrite (parseInt_uint _ Hn);
      unfold Z.of_uint; now rewrite DecimalPos.Unsigned.of_to.
  - simpl. pose proof (DecimalPos.Unsigned.to_uint_nonnil p) as Hn.
    unfold NilZero.string_of_uint.
    destruct (Pos.to_uint p) eqn:E; try easy;
      rewrite <- E in *; unfold parseInt; simpl trimStart; cbv iota;
      rewrite (digits_uint_unseen _ 0 Hn), <- of_uint_value;
      unfold Z.of_uint; now rewrite DecimalPos.Unsigned.of_to.
Qed.

Lemma Qred_inject_Z (n : Z) : Qred (inject_Z n) = inject_Z n.
Proof.
  unfold Qred, inject_Z.
  pose proof (Z.ggcd_gcd n 1) as Hg. pose proof (Z.ggcd_correct_divisors n 1) as Hd.
  destruct (Z.ggcd n 1) as [g [a b]]. simpl in *.
  rewrite Z.gcd_1_r in Hg. subst g. destruct Hd as [-> Hb].
  rewrite !Z.mul_1_l in *. now subst b.
Qed.

Lemma append_empty s : s +:+ EmptyString = s.
Proof.
  induction s as [|c r IH]; [reflexivity|].
  change (String c (r +:+ EmptyString) = String c r). now f_equal.
Qed.

Lemma Number_toString_integer (n : Z) :
  Number_toString (inject_Z n) = NilZero.string_of_int (Z.to_int n).
Proof.
  unfold Number_toString. rewrite Qred_inject_Z. cbn [inject_Z Qnum Qden].
  rewrite Z.div_1_r, Z.mod_1_r. cbn [Z.eqb].
  destruct n as [|p|p]; simpl; try reflexivity.
  - apply append_empty.
  - f_equal. apply append_empty.
Qed.

(** X4.  Typing the decimal numeral of an integer (below 2^53 in absolute
    value, where a JavaScript number is exact), as the input shows the
    stored number, stores that integer again, in the store of App.jsx and in
    the form state of SearchForm. *)
Theorem expectedReturn_numeral_roundtrip (n : Z) (state : App.Store)
    (prev : gmap string FieldValue) (Hsafe : (Z.abs n < 2 ^ 53)%Z) :
  parseInt (Number_toString (inject_Z n)) = Some n
  /\ App.userInput (App.onChange_expectedReturn (Number_toString (inject_Z n)) state)
       !! "expectedReturn" = Some (FNumber n)
  /\ SearchForm.onChange_expectedReturn (Number_toString (inject_Z n)) prev
       !! "expectedReturn" = Some (FNumber n).
Proof.
  assert (E : parseInt (Number_toString (inject_Z n)) = Some n)
    by (rewrite Number_toString_integer; apply parseInt_numeral).
  split; [exact E|].
  unfold App.onChange_expectedReturn, SearchForm.onChange_expectedReturn,
    SearchForm.handleChange, App.setInput, App.set.
  cbn [App.userInput App.set_userInput default from_option id].
  rewrite E, !lookup_insert_eq. split; [reflexivity|].
  destruct (Z.eqb_spec n 0) as [->|]; reflexivity.
Qed.

(** X4 on the default of the form. *)
Lemma expectedReturn_numeral_roundtrip_15 :
  parseInt (Number_toString (inject_Z 15)) = Some 15%Z.
Proof.
  exact (proj1 (expectedReturn_numeral_roundtrip 15 App.initial ∅ ltac:(reflexivity))).
Defined.

End Stored_values.

(** ** The two series, for any input *)

Section Series.

Implicit Types (d : ForecastPoint) (data : list ForecastPoint).

Lemma filter_sublist (p : ForecastPoint -> bool) data : sublist (List.filter p data) data.
Proof.
  induction data as [|d data IH]; simpl; [constructor|].
  destruct (p d); now constructor.
Qed.

Lemma filter_Forall (p : ForecastPoint -> bool) data :
  Forall (fun d => p d = true) (List.filter p data).
Proof.
  induction data as [|d data IH]; simpl; [constructor|].
  destruct (p d) eqn:E; [now constructor|exact IH].
Qed.

Lemma series_lengths data :
  length (List.filter is_history data) + length (List.filter is_forecast data)
  + length (List.filter other_type data) = length data.
Proof.
  induction data as [|d data IH]; [reflexivity|]. simpl. unfold other_type at 1.
  destruct (is_history d) eqn:Eh.
  - rewrite (is_history_not_forecast d Eh). simpl. lia.
  - destruct (is_forecast d); simpl; lia.
Qed.

Lemma series_permutation data :
  forallb (fun d => is_history d || is_forecast d) data = true ->
  List.filter is_history data ++ List.filter is_forecast data ≡ₚ data.
Proof.
  induction data as [|d data IH]; [reflexivity|]. simpl.
  intros [Hd Hrest]%andb_true_iff. specialize (IH Hrest).
  destruct (is_history d) eqn:Eh.
  - rewrite (is_history_not_forecast d Eh). simpl. now constructor.
  - simpl in Hd. rewrite Hd. rewrite <- Permutation_middle. now constructor.
Qed.

(** X5.  For any input, in any order: the history series holds exactly the
    points of type history and the forecast series those of type forecast,
    each in the order of the input; a point of any other type is in neither;
    and when every point has one of the two types, the two series together
    are a rearrangement of the input. *)
Theorem series_partition data :
  let s := PriceForecast.PriceForecast data in
  Forall (fun d => type d = "history") (PriceForecast.historyData s)
  /\ Forall (fun d => type d = "forecast") (PriceForecast.forecastData s)
  /\ sublist (PriceForecast.historyData s) data
  /\ sublist (PriceForecast.forecastData s) data
  /\ length (PriceForecast.historyData s) + length (PriceForecast.forecastData s)
     + length (List.filter other_type data) = length data
  /\ (forallb (fun d => is_history d || is_forecast d) data = true ->
      PriceForecast.historyData s ++ PriceForecast.forecastData s ≡ₚ data).
Proof.
  cbn zeta. unfold PriceForecast.PriceForecast.
  cbn [PriceForecast.historyData PriceForecast.forecastData].
  repeat split.
  - eapply Forall_impl; [apply filter_Forall|]. intros d H. now apply String.eqb_eq.
  - eapply Forall_impl; [apply filter_Forall|]. intros d H. now apply String.eqb_eq.
  - apply filter_sublist.
  - apply filter_sublist.
  - apply series_lengths.
  - apply series_permutation.
Qed.

(** X6.  [StockChart] shows the waiting card exactly for a missing or empty
    input; otherwise its two series are those of [PriceForecast], and its
    connector is the first two points of [PriceForecast]'s connector when
    there is a history point, and empty when there is none. *)
Theorem StockChart_and_PriceForecast data :
  StockChart.StockChart None = None
  /\ StockChart.StockChart (Some data)
     = match data with
       | [] => None
       | _ =>
           let s := PriceForecast.PriceForecast data in
           Some {| StockChart.historyData := PriceForecast.historyData s;
                   StockChart.forecastData := PriceForecast.forecastData s;
                   StockChart.connectorData :=
                     match PriceForecast.historyData s with
                     | [] => []
                     | _ => take 2 (PriceForecast.connector s)
                     end |}
       end.
Proof.
  split; [reflexivity|]. destruct data as [|d data]; [reflexivity|].
  unfold StockChart.StockChart, PriceForecast.PriceForecast.
  cbn [length Nat.eqb PriceForecast.historyData PriceForecast.forecastData
       PriceForecast.connector].
  set (history := List.filter is_history (d :: data)).
  set (forecast := List.filter is_forecast (d :: data)).
  do 2 f_equal. rewrite guarded_head, !guarded_last.
  destruct history as [|h history'] eqn:E; [reflexivity|]. rewrite <- E.
  assert (Hl : exists p, last history = Some p).
  { rewrite E. destruct (last (h :: history')) eqn:El; [eauto|].
    apply last_None in El. discriminate. }
  destruct Hl as [p ->]. now destruct forecast.
Qed.

End Series.

(** ** Edits, calls and messages *)

Section Calls.

Import App.

Variable rt : Runtime.

Implicit Types (o : Outcome) (state : Store) (e : Event) (events : list Event).

Ltac js_unfold :=
  unfold ToString_opt, ToString, get, await, call_startsWith,
    mbind, Completion_bind, mret, Completion_ret, throw in *.

(** X7.  Setting a field twice keeps the second value, and settings of
    two different fields can be made in either order. *)
Theorem setInput_twice (state : Store) (k1 k2 : string) (v1 v2 : FieldValue) :
  setInput k1 v2 (setInput k1 v1 state) = setInput k1 v2 state
  /\ (k1 <> k2 ->
      setInput k2 v2 (setInput k1 v1 state) = setInput k1 v1 (setInput k2 v2 state)).
Proof.
  unfold setInput, set.
  cbn [userInput isLoading apiError analysisResults
       set_userInput set_isLoading set_apiError set_analysisResults
       default from_option id].
  split.
  - now rewrite insert_insert_eq.
  - intros Hne. f_equal. now apply insert_insert_ne.
Qed.

Lemma step_profile state state' e :
  userInput state = userInput state' ->
  if is_edit e then userInput (step rt state e) = userInput (step rt state' e)
  else userInput (step rt state e) = userInput state'.
Proof.
  intros H. destruct e as [key value| |o]; cbn [is_edit step].
  - unfold setInput, set. cbn. now rewrite H.
  - exact H.
  - rewrite settle_settlement. now destruct (settlement rt o).
Qed.

Lemma step_session state state' e :
  isLoading state = isLoading state' -> apiError state = apiError state' ->
  analysisResults state = analysisResults state' ->
  let after := step rt state e in
  let after' := if is_edit e then state' else step rt state' e in
  isLoading after = isLoading after' /\ apiError after = apiError after'
  /\ analysisResults after = analysisResults after'.
Proof.
  intros Hl He Hr. destruct e as [key value| |o]; cbn [is_edit step]; cbn zeta.
  - now repeat split.
  - unfold fetchAnalysis_start, set. cbn. now repeat split.
  - rewrite !settle_settlement. destruct (settlement rt o); cbn; now repeat split.
Qed.

Lemma run_profile events state state' :
  userInput state = userInput state' ->
  userInput (run rt events state) = userInput (run rt (List.filter is_edit events) state').
Proof.
  unfold run. revert state state'.
  induction events as [|e events IH]; intros state state' H; [exact H|].
  pose proof (step_profile state state' e H) as Hs. cbn [fold_left List.filter].
  destruct (is_edit e); cbn [fold_left]; now apply IH.
Qed.

Lemma run_session events state state' :
  isLoading state = isLoading state' -> apiError state = apiError state' ->
  analysisResults state = analysisResults state' ->
  let final := run rt events state in
  let final' := run rt (List.filter (fun e => negb (is_edit e)) events) state' in
  isLoading final = isLoading final' /\ apiError final = apiError final'
  /\ analysisResults final = analysisResults final'.
Proof.
  unfold run. revert state state'.
  induction events as [|e events IH]; intros state state' Hl He Hr;
    [now repeat split|].
  destruct (step_session state state' e Hl He Hr) as (Hl' & He' & Hr').
  cbn [fold_left List.filter]. destruct (is_edit e); cbn [negb fold_left] in *;
    now apply IH.
Qed.

(** X8.  The profile and the session do not touch each other: after any
    sequence of events the profile is what the edits alone would have made
    it, and the loading flag, the error and the result are what the
    submissions and settlements alone would have made them. *)
Theorem edits_and_session_independent events state :
  userInput (run rt events state) = userInput (run rt (List.filter is_edit events) state)
  /\ isLoading (run rt events state)
     = isLoading (run rt (List.filter (fun e => negb (is_edit e)) events) state)
  /\ apiError (run rt events state)
     = apiError (run rt (List.filter (fun e => negb (is_edit e)) events) state)
  /\ analysisResults (run rt events state)
     = analysisResults (run rt (List.filter (fun e => negb (is_edit e)) events) state).
Proof.
  split; [now apply run_profile|]. now apply run_session.
Qed.

(** X9.  When one call has ended before the next is made, the second call
    ends as it would have ended alone: its loading flag and error do not
    depend on the first call, a payload it takes is the result with no
    error left, a failure leaves its own message, and the result of the
    first call stays only when the second stores none. *)
Theorem sequential_calls o1 o2 state :
  let first := fetchAnalysis rt o1 state in
  let second := fetchAnalysis rt o2 first in
  isLoading second = isLoading (fetchAnalysis rt o2 state)
  /\ apiError second = apiError (fetchAnalysis rt o2 state)
  /\ userInput second = userInput state
  /\ analysisResults second
     = match settlement rt o2 with
       | Stored aiData => aiData
       | _ => analysisResults first
       end
  /\ (forall aiData, Accepted rt o2 aiData ->
      second = {| userInput := userInput state; isLoading := false;
                  apiError := None; analysisResults := aiData |})
  /\ (forall errorMessage, settlement rt o2 = Failed errorMessage ->
      second = {| userInput := userInput state; isLoading := false;
                  apiError := Some errorMessage;
                  analysisResults := analysisResults first |}).
Proof.
  cbn zeta. rewrite !fetchAnalysis_settlement. repeat split.
  - destruct (settlement rt o1), (settlement rt o2); reflexivity.
  - destruct (settlement rt o1), (settlement rt o2); reflexivity.
  - destruct (settlement rt o1), (settlement rt o2); reflexivity.
  - destruct (settlement rt o1), (settlement rt o2); reflexivity.
  - intros aiData H%settlement_stored. rewrite H. now destruct (settlement rt o1).
  - intros m H. rewrite H. now destruct (settlement rt o1).
Qed.

Lemma fetchAnalysis_failed o state errorMessage :
  settlement rt o = Failed errorMessage ->
  fetchAnalysis rt o state
  = {| userInput := userInput state; isLoading := false;
       apiError := Some errorMessage; analysisResults := analysisResults state |}.
Proof. intros E. now rewrite fetchAnalysis_settlement, E. Qed.

(** X10.  A truthy [error] member of the body is what the user gets, also
    when the body carries a payload that would have been taken: its text is
    stored as the error and the result stays as it was. *)
Theorem error_member_first (r : Response) (members : list (string * Json))
    (error : Json) (state : Store)
    (Hbody : data r = JObj members)
    (Herror : last_member "error" members = Some error)
    (Htruthy : truthy error = true) (Hprints : printable error = true) :
  fetchAnalysis rt (Fulfilled r) state
  = {| userInput := userInput state; isLoading := false;
       apiError := Some (ToString_text error); analysisResults := analysisResults state |}.
Proof.
  apply fetchAnalysis_failed. unfold settlement, try_block. js_unfold.
  rewrite Hbody, Herror. cbn [truthy_opt]. rewrite Htruthy, Hprints.
  reflexivity.
Qed.

(** X11.  With no truthy [error] member in the body, what is stored as the
    error for a payload that is not taken: "Empty response from AI" for a
    payload that is missing, [null], empty, false or zero; the payload
    itself when it starts with "Error:"; the engine's complaint for a truthy
    payload that is not a string; and the message of [JSON.parse] for a
    string it rejects.  The result stays as it was in each case. *)
Theorem payload_messages (r : Response) (members : list (string * Json)) (state : Store)
    (Hbody : data r = JObj members)
    (Herror : truthy_opt (last_member "error" members) = false) :
  let payload := last_member "analysis" members in
  let failed message :=
    fetchAnalysis rt (Fulfilled r) state
    = {| userInput := userInput state; isLoading := false;
         apiError := Some message; analysisResults := analysisResults state |} in
  (truthy_opt payload = false -> failed "Empty response from AI")
  /\ (forall text, payload = Some (JStr text) -> Str.startsWith "Error:" text = true ->
      failed text)
  /\ (forall v, payload = Some v -> truthy v = true ->
      (forall text, v <> JStr text) ->
      failed "aiResponseJsonString.startsWith is not a function")
  /\ (forall text message, payload = Some (JStr text) -> text <> EmptyString ->
      Str.startsWith "Error:" text = false -> JSON_parse rt text = inl message ->
      failed message).
Proof.
  cbn zeta. repeat split.
  - intros Hp. apply fetchAnalysis_failed. unfold settlement, try_block. js_unfold.
    rewrite Hbody, Herror, Hp. reflexivity.
  - intros text Hp Hpre. apply fetchAnalysis_failed. unfold settlement, try_block.
    js_unfold. rewrite Hbody, Herror, Hp. cbn [truthy_opt truthy].
    destruct text as [|c text']; [discriminate|]. cbn [String.eqb negb].
    rewrite Hpre. reflexivity.
  - intros v Hp Hv Hns. apply fetchAnalysis_failed. unfold settlement, try_block.
    js_unfold. rewrite Hbody, Herror, Hp. cbn [truthy_opt]. rewrite Hv. cbn [negb].
    destruct v; try reflexivity. now destruct (Hns s).
  - intros text message Hp Hne Hpre Hparse. apply fetchAnalysis_failed.
    unfold settlement, try_block. js_unfold. rewrite Hbody, Herror, Hp.
    cbn [truthy_opt truthy]. apply String.eqb_neq in Hne. rewrite Hne. cbn [negb].
    rewrite Hpre. cbn [printable ToString_text]. now rewrite Hparse.
Qed.

End Calls.

(** ** The form *)

Section Form_pages.

Import App Form.

Variable rt : Runtime.

Implicit Types (p : Page) (a : Action) (actions : list Action) (o : Outcome).

Ltac insert_lookups :=
  rewrite ?lookup_insert_eq; rewrite ?lookup_insert_ne by done.

Lemma edit_field_invariant p key value :
  invariant rt p ->
  profile_ok (<[key := value]> (userInput (store p))) ->
  invariant rt (edit (setInput key value) p).
Proof.
  intros (_ & Hlen & Hload & Hreq) Hprofile.
  split; [exact Hprofile|]. split; [exact Hlen|]. split; [exact Hload|exact Hreq].
Qed.

Lemma invariant_start : invariant rt start.
Proof.
  repeat split; try easy; cbn.
  - now exists "AAPL".
  - now exists Medium.
  - right. now exists 15%Z.
  - now exists ["Stable Income"].
  - eexists. reflexivity.
  - lia.
Qed.

Lemma invariant_act p a : invariant rt p -> invariant rt (act rt p a).
Proof.
  intros Hinv. pose proof Hinv as ((Ht & Hr & He & Hf & Hp) & Hlen & Hload & Hreq).
  destruct a as [value|option|value|value|value| |o]; cbn [act].
  - apply edit_field_invariant; [exact Hinv|]. unfold profile_ok. insert_lookups.
    repeat split; try assumption.
    exists (Str.toUpperCase value). split; [reflexivity|apply toUpperCase_idempotent].
  - apply edit_field_invariant; [exact Hinv|]. unfold profile_ok. insert_lookups.
    repeat split; try assumption. now exists option.
  - apply edit_field_invariant; [exact Hinv|]. unfold profile_ok. insert_lookups.
    repeat split; try assumption.
    destruct (Str.parseInt value) as [n|]; [right; now exists n | now left].
  - apply edit_field_invariant; [exact Hinv|]. unfold profile_ok. insert_lookups.
    repeat split; try assumption.
    destruct (parsed_entries_plain value) as [Hne Hplain]. eauto.
  - apply edit_field_invariant; [exact Hinv|]. unfold profile_ok. insert_lookups.
    repeat split; try assumption. now exists value.
  - destruct (isLoading (store p)) eqn:El; [exact Hinv|].
    destruct (ticker_missing (store p)) eqn:Em; [exact Hinv|]. cbn [orb].
    assert (Hnone : in_flight p = []).
    { destruct (in_flight p); [reflexivity|].
      destruct Hload as [Hl _]; [easy|congruence]. }
    unfold handleSubmit. rewrite Hnone. repeat split; try assumption; cbn.
    + lia.
    + constructor; [|constructor]. repeat split; try assumption.
      unfold ticker_missing in Em. destruct Ht as (t & Et & _).
      rewrite Et in Em. exists t. split; [exact Et|]. now apply String.eqb_neq.
  - destruct (in_flight p) as [|r rest] eqn:Ef; [exact Hinv|].
    cbn in Hlen. assert (rest = []) as -> by (destruct rest; [reflexivity|cbn in Hlen; lia]).
    repeat split; cbn [store in_flight]; try easy; try (cbn; lia).
    all: rewrite settle_settlement; destruct (settlement rt o); assumption.
Qed.

Lemma invariant_acts actions p : invariant rt p -> invariant rt (acts rt actions p).
Proof.
  unfold acts. revert p. induction actions as [|a actions IH]; intros p H; [exact H|].
  cbn [fold_left]. apply IH. now apply invariant_act.
Qed.

(** X12.  However the form is used, at most one request is in flight;
    while one is, the store is loading with no error, and a click on
    Analyze changes nothing. *)
Theorem form_single_flight actions :
  let p := acts rt actions start in
  length (in_flight p) <= 1
  /\ (in_flight p <> [] -> isLoading (store p) = true /\ apiError (store p) = None)
  /\ (in_flight p <> [] -> act rt p Click_Analyze = p).
Proof.
  cbn zeta. destruct (invariant_acts actions start invariant_start)
    as (_ & Hlen & Hload & _).
  repeat split; try assumption; try (now apply Hload).
  intros H. destruct (Hload H) as [Hl _]. cbn [act]. now rewrite Hl.
Qed.

(** X13.  However the form is used, the profile has an upper-case ticker,
    one of the three risk options, a number or [NaN] as expected return, at
    least one financial-condition entry, each without comma and without
    white space at its ends, and a preferences text; and every request in
    flight went to the analyze endpoint with such a profile and a ticker
    that is not empty. *)
Theorem form_requests_well_formed actions :
  let p := acts rt actions start in
  profile_ok (userInput (store p)) /\ Forall (request_ok rt) (in_flight p).
Proof.
  cbn zeta. destruct (invariant_acts actions start invariant_start)
    as (Hprofile & _ & _ & Hreq).
  now split.
Qed.

(** X14.  However the form is used, a reply to the request in flight ends
    the loading with its own outcome and nothing of an earlier call: a
    payload that is taken ends with that payload stored and no error, a
    failure with its message stored and the result as it was; the profile is
    as it was and no request is left in flight. *)
Theorem form_reply_own_outcome actions o
    (Hflight : in_flight (acts rt actions start) <> []) :
  let p := acts rt actions start in
  let q := act rt p (Reply o) in
  in_flight q = []
  /\ userInput (store q) = userInput (store p)
  /\ (forall aiData, Accepted rt o aiData ->
      store q = {| userInput := userInput (store p); isLoading := false;
                   apiError := None; analysisResults := aiData |})
  /\ (forall errorMessage, settlement rt o = Failed errorMessage ->
      store q = {| userInput := userInput (store p); isLoading := false;
                   apiError := Some errorMessage;
                   analysisResults := analysisResults (store p) |}).
Proof.
  cbn zeta. destruct (invariant_acts actions start invariant_start)
    as (_ & Hlen & Hload & _).
  set (p := acts rt actions start) in *.
  destruct (Hload Hflight) as [Hl He]. cbn [act].
  destruct (in_flight p) as [|r rest] eqn:Ef; [easy|].
  assert (rest = []) as -> by (destruct rest; [reflexivity|cbn in Hlen; lia]).
  cbn [store in_flight]. rewrite settle_settlement.
  split; [reflexivity|]. split; [now destruct (settlement rt o)|]. split.
  - intros aiData H%settlement_stored. now rewrite H, He.
  - intros errorMessage H. now rewrite H.
Qed.

(** X15.  Once a reply to the request in flight is a rejection on which
    the [catch] block throws, the page stays on the spinner whatever is done
    next: the store keeps loading, no request is in flight and none is
    posted any more. *)
Theorem form_stuck_after_unhandled_rejection actions o more
    (Hflight : in_flight (acts rt actions start) <> [])
    (Hthrows : unhandled_rejection o = true) :
  let q := acts rt more (act rt (acts rt actions start) (Reply o)) in
  isLoading (store q) = true
  /\ in_flight q = []
  /\ DashboardDisplay (store q) = Spinner.
Proof.
  cbn zeta. destruct (invariant_acts actions start invariant_start)
    as (_ & Hlen & Hload & _).
  set (p := acts rt actions start) in *.
  destruct (Hload Hflight) as [Hl _].
  assert (Hstuck : isLoading (store (act rt p (Reply o))) = true
                   /\ in_flight (act rt p (Reply o)) = []).
  { cbn [act]. destruct (in_flight p) as [|r rest] eqn:Ef; [easy|].
    assert (rest = []) as -> by (destruct rest; [reflexivity|cbn in Hlen; lia]).
    cbn [store in_flight]. rewrite settle_settlement.
    apply (settlement_escaped rt) in Hthrows. now rewrite Hthrows. }
  generalize dependent (act rt p (Reply o)). clear. intros q0 Hstuck.
  assert (H : isLoading (store (acts rt more q0)) = true
              /\ in_flight (acts rt more q0) = []).
  { unfold acts. revert q0 Hstuck.
    induction more as [|a more IH]; intros q0 [Hl Hf]; [now split|].
    cbn [fold_left]. apply IH.
    destruct a; cbn [act edit store in_flight]; try (now split).
    - now rewrite Hl.
    - now rewrite Hf. }
  destruct H as [Hl Hf]. repeat split; try assumption.
  unfold DashboardDisplay. now rewrite Hl.
Qed.

End Form_pages.

(** ** On the sample settlements *)

Section More_runs.

Import App Form Sample.

(** X10 on a body that carries both an error and a payload. *)
Lemma error_member_first_example :
  fetchAnalysis local_runtime (reply [("error", JStr "boom"); ("analysis", JStr "{}")]) initial
  = {| userInput := userInput initial; isLoading := false;
       apiError := Some "boom"; analysisResults := mockData |}.
Proof.
  exact (error_member_first local_runtime
           {| data := JObj [("error", JStr "boom"); ("analysis", JStr "{}")]; status := 200 |}
           [("error", JStr "boom"); ("analysis", JStr "{}")] (JStr "boom") initial
           eq_refl eq_refl eq_refl eq_refl).
Defined.

(** X11 on the payload "Error: model unavailable". *)
Lemma payload_messages_example :
  fetchAnalysis local_runtime (reply [("analysis", JStr "Error: model unavailable")]) initial
  = {| userInput := userInput initial; isLoading := false;
       apiError := Some "Error: model unavailable"; analysisResults := mockData |}.
Proof.
  exact (proj1 (proj2 (payload_messages local_runtime
                         {| data := JObj [("analysis", JStr "Error: model unavailable")];
                            status := 200 |}
                         [("analysis", JStr "Error: model unavailable")] initial
                         eq_refl eq_refl))
           "Error: model unavailable" eq_refl eq_refl).
Defined.

(** X14 on a first request answered with the payload "[1]". *)
Lemma form_reply_example :
  store (act local_runtime (acts local_runtime [Click_Analyze] start)
           (Reply (reply [("analysis", JStr "[1]")])))
  = {| userInput := userInput initial; isLoading := false;
       apiError := None; analysisResults := JArr [JNum 1] |}.
Proof.
  refine (proj1 (proj2 (proj2
            (form_reply_own_outcome local_runtime [Click_Analyze]
               (reply [("analysis", JStr "[1]")]) ltac:(vm_compute; discriminate))))
            (JArr [JNum 1]) _).
  exists {| data := JObj [("analysis", JStr "[1]")]; status := 200 |},
    [("analysis", JStr "[1]")], "[1]".
  repeat split; try reflexivity. discriminate.
Defined.

(** X15 on a first request answered 500 with the body [null]: a new
    ticker and a second click leave the spinner on. *)
Lemma form_stuck_example :
  let q := acts local_runtime [Type_ticker "msft"; Click_Analyze]
             (act local_runtime (acts local_runtime [Click_Analyze] start)
                (Reply null_body_error)) in
  isLoading (store q) = true /\ in_flight q = [] /\ DashboardDisplay (store q) = Spinner.
Proof.
  exact (form_stuck_after_unhandled_rejection local_runtime [Click_Analyze]
           null_body_error [Type_ticker "msft"; Click_Analyze]
           ltac:(vm_compute; discriminate) eq_refl).
Defined.

End More_runs.

(** ** The build gate *)

Section Build_gate.

Import BuildGate.

Local Open Scope Z_scope.

(** X16.  The script ends with status 0, which skips the build, exactly
    when the previous commit is named, is there or could be fetched, the
    current commit is named, and [git diff --quiet] found no change under
    [frontend/].  With no previous commit named it ends with 1 whatever git
    would say; when both fetches fail it ends with the status of the
    second. *)
Theorem build_skipped_iff (w : World) :
  (exit_status w = 0
   <-> (exists previous, VERCEL_GIT_PREVIOUS_SHA w = Some previous /\ previous <> EmptyString)
       /\ (cat_file_finds w = true \/ fetch_depth_1 w = 0 \/ fetch_unshallow w = 0)
       /\ (exists current, VERCEL_GIT_COMMIT_SHA w = Some current)
       /\ diff_quiet w = 0)
  /\ (VERCEL_GIT_PREVIOUS_SHA w = None \/ VERCEL_GIT_PREVIOUS_SHA w = Some EmptyString ->
      exit_status w = 1)
  /\ (forall previous, VERCEL_GIT_PREVIOUS_SHA w = Some previous -> previous <> EmptyString ->
      cat_file_finds w = false -> fetch_depth_1 w <> 0 -> fetch_unshallow w <> 0 ->
      exit_status w = fetch_unshallow w).
Proof.
  unfold exit_status. split; [|split].
  - destruct (VERCEL_GIT_PREVIOUS_SHA w) as [previous|].
    2: { split; [discriminate|]. now intros ((? & ? & _) & _). }
    destruct (String.eqb_spec previous "") as [->|Hp].
    { split; [discriminate|]. now intros ((? & [= <-] & ?) & _). }
    destruct (cat_file_finds w); cbn [negb Z.eqb].
    + destruct (VERCEL_GIT_COMMIT_SHA w) as [current|].
      2: { split; [discriminate|]. now intros (_ & _ & (? & ?) & _). }
      destruct (Z.eqb_spec (diff_quiet w) 0) as [Hd|Hd].
      * split; [|reflexivity]. intros _. repeat split; eauto.
      * split; [discriminate|]. now intros (_ & _ & _ & ?).
    + destruct (Z.eqb_spec (fetch_depth_1 w) 0) as [Hf|Hf]; cbn [negb Z.eqb].
      * destruct (VERCEL_GIT_COMMIT_SHA w) as [current|].
        2: { split; [discriminate|]. now intros (_ & _ & (? & ?) & _). }
        destruct (Z.eqb_spec (diff_quiet w) 0) as [Hd|Hd].
        -- split; [|reflexivity]. intros _. repeat split; eauto.
        -- split; [discriminate|]. now intros (_ & _ & _ & ?).
      * destruct (Z.eqb_spec (fetch_unshallow w) 0) as [Hu|Hu]; cbn [negb].
        -- destruct (VERCEL_GIT_COMMIT_SHA w) as [current|].
           2: { split; [discriminate|]. now intros (_ & _ & (? & ?) & _). }
           destruct (Z.eqb_spec (diff_quiet w) 0) as [Hd|Hd].
           ++ split; [|reflexivity]. intros _. repeat split; eauto.
           ++ split; [discriminate|]. now intros (_ & _ & _ & ?).
        -- split; [contradiction|]. intros (_ & [?|[?|?]] & _); congruence.
  - intros [->| ->]; reflexivity.
  - intros previous -> Hp -> Hf Hu.
    apply String.eqb_neq in Hp. rewrite Hp.
    apply Z.eqb_neq in Hf, Hu. now rewrite Hf, Hu.
Qed.

End Build_gate.

(** ** The children of the dashboard *)

Section Children.

Import Render.

Lemma objects_have_properties (p : list (string * Json) -> bool) k xs :
  forallb (fun x => match x with JObj ms => p ms | _ => false end) xs = true ->
  each_has_properties k xs = inr tt.
Proof.
  induction xs as [|x xs IH]; [reflexivity|]. simpl.
  intros [Hx Hxs]%andb_true_iff. destruct x; try discriminate. now apply IH.
Qed.

(** X17.  A result of the shape [lib/types.ts] declares is not [null],
    and none of the components [DashboardDisplay] puts on the page throws
    when it is called on its member of that result. *)
Theorem shaped_result_renders (results : Json)
    (Hshape : Shape.AnalysisResult results = true) :
  results <> JNull /\ children results = inr tt.
Proof.
  destruct results as [| | | | |ms]; try discriminate. split; [discriminate|].
  unfold Shape.AnalysisResult in Hshape.
  apply andb_true_iff in Hshape as [Hshape Hstocks].
  apply andb_true_iff in Hshape as [Hshape Hadvice].
  apply andb_true_iff in Hshape as [_ Hforecast].
  unfold children, get, mbind, Completion_bind, mret, Completion_ret.
  unfold Shape.all_members in Hforecast, Hstocks.
  destruct (last_member "forecastData" ms) as [[| | | |points|]|]; try discriminate.
  destruct (last_member "recommendedStocks" ms) as [[| | | |stocks|]|]; try discriminate.
  unfold Shape.InvestmentAdviceData in Hadvice.
  destruct (last_member "investmentAdvice" ms) as [[| | | | |advice]|]; try discriminate.
  apply andb_true_iff in Hadvice as [Hadvice Hstop].
  apply andb_true_iff in Hadvice as [Hentry Hreturn].
  unfold PriceForecast_call, InvestmentAdvice_call, RecommendedStocks_call, get,
    mbind, Completion_bind, mret, Completion_ret.
  rewrite (objects_have_properties _ "type" points Hforecast).
  rewrite (objects_have_properties _ "ticker" stocks Hstocks).
  unfold Shape.is_number in *.
  destruct (last_member "entryPoint" advice) as [[]|]; try discriminate.
  destruct (last_member "expectedReturn" advice) as [[]|]; try discriminate.
  destruct (last_member "stopLoss" advice) as [[]|]; try discriminate.
  reflexivity.
Qed.

(** X17 on the mock data. *)
Lemma shaped_result_renders_mock : children App.mockData = inr tt.
Proof. exact (proj2 (shaped_result_renders App.mockData eq_refl)). Defined.

Example shapeless_results_throw :
  children (JObj []) = inl (TypeError_undefined_property "filter")
  /\ children (JArr [JNum 1]) = inl (TypeError_undefined_property "filter")
  /\ App.DashboardDisplay
       {| App.userInput := ∅; App.isLoading := false; App.apiError := None;
          App.analysisResults := JNull |}
     = App.Throws (TypeError_null_property "ticker").
Proof. repeat split. Qed.

End Children.
